(** * EVR texture editor: container model, dimension resolver, parameter
      cache and replacement engine

    A shallow embedding of the core of [EVR_Texture_Editor.py]
    (classes [ASTCTools], [DDSHandler] and [TextureReplacer]) and the
    properties of it that the specification states.

    Conventions of the embedding:
    - Python integers are [Z]; [//] is [Z.div] (both round towards minus
      infinity), with [ZeroDivisionError] written out.
    - [bytes] and [bytearray] values are [list byte].
    - The file system is a finite map from path to file content; the
      process-wide dictionary [DECODE_CACHE] and the texture mapping are
      finite maps keyed by string.
    - A Python function that can raise returns a [pyresult]; a function whose
      body is wrapped in [try ... except Exception] returns the value its
      handler returns.
    - External programs ([astcenc], [texconv]) and the [os.path] / [pathlib]
      helpers are parameters of the sections that use them. *)

From Stdlib Require Import ZArith List Lia Bool.
From Stdlib Require Import Strings.String Strings.Ascii Strings.Byte.
From Stdlib Require Import QArith Qround.
From stdpp Require Import base option list gmap strings pretty.

Local Open Scope string_scope.
Local Open Scope list_scope.
Local Open Scope Z_scope.

(** ** Python base layer *)

Module Py.

(** Exceptions the modelled code can meet. *)
Inductive PyExn : Type :=
| NameError (name : string)
| ZeroDivisionError
| StructError
| TypeError
| FileNotFoundError (path : string)
| SameFileError (path : string).

Inductive pyresult (A : Type) : Type :=
| Ret (a : A)
| Raise (e : PyExn).
Arguments Ret {A} a.
Arguments Raise {A} e.

#[global] Instance pyresult_ret : MRet pyresult := fun A a => Ret a.

#[global] Instance pyresult_bind : MBind pyresult := fun A B k m =>
  match m with
  | Ret a => k a
  | Raise e => Raise e
  end.

(** [str(e)] for the exception whose text is fixed by the interpreter. *)
Definition str_NameError (name : string) : string :=
  "name '" +:+ name +:+ "' is not defined".

(** *** Bytes *)

#[global] Instance byte_eq_decision : EqDecision byte := Byte.byte_eq_dec.

Definition byte_to_Z (b : byte) : Z := Z.of_N (Byte.to_N b).

Definition byte_of_Z (z : Z) : byte :=
  default x00 (Byte.of_N (Z.to_N (z mod 256))).

Definition len {A} (l : list A) : Z := Z.of_nat (length l).

(** [data[lo:hi]] for non-negative constant bounds; like Python, the slice is
    clamped to the length of [data]. *)
Definition slice {A} (lo hi : nat) (data : list A) : list A :=
  take (hi - lo) (drop lo data).

(** [data[:n]] for an integer [n] that may be negative: a negative bound
    counts from the end. *)
Definition slice_to {A} (n : Z) (data : list A) : list A :=
  if n <? 0 then take (Z.to_nat (Z.max 0 (len data + n))) data
  else take (Z.to_nat n) data.

(** [struct.pack('<I', x)]: raises [struct.error] outside [0, 2^32). *)
Definition struct_pack_I (x : Z) : pyresult (list byte) :=
  if (0 <=? x) && (x <? 2 ^ 32) then
    Ret [byte_of_Z x; byte_of_Z (Z.shiftr x 8);
         byte_of_Z (Z.shiftr x 16); byte_of_Z (Z.shiftr x 24)]
  else Raise StructError.

(** [struct.pack('3B', a, b, c)]: every argument must be in [0, 255]. *)
Definition struct_pack_3B (a b c : Z) : pyresult (list byte) :=
  if forallb (fun v => (0 <=? v) && (v <=? 255)) [a; b; c] then
    Ret [byte_of_Z a; byte_of_Z b; byte_of_Z c]
  else Raise StructError.

(** [struct.unpack('<I', bs)[0]]: needs exactly four bytes. *)
Definition struct_unpack_I (bs : list byte) : pyresult Z :=
  match bs with
  | [b0; b1; b2; b3] =>
      Ret (byte_to_Z b0 + Z.shiftl (byte_to_Z b1) 8
           + Z.shiftl (byte_to_Z b2) 16 + Z.shiftl (byte_to_Z b3) 24)
  | _ => Raise StructError
  end.

(** *** Strings *)

(** [s.endswith(suffix)] *)
Definition endswith (s suffix : string) : bool :=
  (String.length suffix <=? String.length s)%nat
  && String.eqb (substring (String.length s - String.length suffix)
                           (String.length suffix) s) suffix.

(** [s[:-n]] for a positive constant [n]. *)
Definition drop_last (n : nat) (s : string) : string :=
  substring 0 (String.length s - n) s.

Definition lower_ascii (c : ascii) : ascii :=
  let n := nat_of_ascii c in
  if ((65 <=? n) && (n <=? 90))%nat then ascii_of_nat (n + 32) else c.

(** [s.lower()] as far as the ASCII letters go.  It is used where the
    result is tested for the suffix [".dds"] only: no other character
    lowers to one of [.], [d] or [s]. *)
Fixpoint lower (s : string) : string :=
  match s with
  | EmptyString => EmptyString
  | String c s' => String (lower_ascii c) (lower s')
  end.

End Py.

Import Py.

(** ** The world the program acts on *)

Module Env.

(** One record of [DECODE_CACHE]: the dictionary with keys ['width'],
    ['height'], ['block_w'], ['block_h'] and ['original_size']. *)
Record DecodeParams : Type := mkDecodeParams {
  cache_width : Z;
  cache_height : Z;
  cache_block_w : Z;
  cache_block_h : Z;
  cache_original_size : Z
}.

(** One entry of the texture mapping file: [{'width': .., 'height': ..}]. *)
Record TextureInfo : Type := mkTextureInfo {
  info_width : Z;
  info_height : Z
}.

(** How a child process ended, as [subprocess.run] reports it. *)
Inductive ProcOutcome : Type :=
| Exited (returncode : Z)
| TimeoutExpired
| CommandFailed.

(** [run_hidden_command]: a timeout or a failed spawn is turned into a
    [CompletedProcess] with return code [-1]; nothing is raised. *)
Definition run_hidden_command (o : ProcOutcome) : Z :=
  match o with
  | Exited returncode => returncode
  | TimeoutExpired => -1
  | CommandFailed => -1
  end.

(** What one run of an external tool did: how it ended and the output file
    it wrote, if it wrote one. *)
Record ToolRun : Type := mkToolRun {
  outcome : ProcOutcome;
  produced : option (list byte)
}.

(** The external tool invocations, in the order they were made. *)
Inductive ToolCall : Type :=
| AstcencDecode (wrapped : list byte) (output_file : string)
| AstcencEncode (input_png : string) (block_w block_h : Z) (quality : string)
| ConvertToDDS (source_path : string) (target_width target_height : Z).

(** The files by path as the program spells it, the parameter cache and the
    tool log.  [aliases] is the part of the file system that [fs] does not
    show: whether two paths of different spelling name one file (a link, a
    path with [..] or [./] in it, another case on a file system that folds
    it).  The program creates no link, so it does not change. *)
Record World : Type := mkWorld {
  fs : gmap string (list byte);
  DECODE_CACHE : gmap string DecodeParams;
  tool_log : list ToolCall;
  aliases : string -> string -> bool
}.

Definition set_fs (f : gmap string (list byte)) (w : World) : World :=
  mkWorld f (DECODE_CACHE w) (tool_log w) (aliases w).

Definition set_cache (c : gmap string DecodeParams) (w : World) : World :=
  mkWorld (fs w) c (tool_log w) (aliases w).

Definition log_call (c : ToolCall) (w : World) : World :=
  mkWorld (fs w) (DECODE_CACHE w) (tool_log w ++ [c]) (aliases w).

(** [os.path.exists] / [os.path.isfile] / [Path.exists] on a file path.
    Directories are not tracked: [os.makedirs(..., exist_ok=True)] leaves the
    file map as it is. *)
Definition file_exists (path : string) (w : World) : bool :=
  bool_decide (is_Some (fs w !! path)).

Definition write_bytes (path : string) (data : list byte) (w : World) : World :=
  set_fs (<[path := data]> (fs w)) w.

(** [Path.unlink] / [os.remove] of a file known to exist; on an absent path
    the map is unchanged. *)
Definition unlink (path : string) (w : World) : World :=
  set_fs (delete path (fs w)) w.

(** Code that can raise after it changed the world: the changes made before
    the exception stay. *)
Definition M (A : Type) : Type := World -> pyresult A * World.

Definition ret {A} (a : A) : M A := fun w => (Ret a, w).

Definition raise {A} (e : PyExn) : M A := fun w => (Raise e, w).

Definition bind {A B} (m : M A) (k : A -> M B) : M B := fun w =>
  match m w with
  | (Ret a, w') => k a w'
  | (Raise e, w') => (Raise e, w')
  end.

Definition lift {A} (r : pyresult A) : M A := fun w => (r, w).

Definition modify (f : World -> World) : M unit := fun w => (Ret tt, f w).

Definition gets {A} (f : World -> A) : M A := fun w => (Ret (f w), w).

(** [os.path.getsize(path)] *)
Definition getsize (path : string) : M Z := fun w =>
  match fs w !! path with
  | Some data => (Ret (len data), w)
  | None => (Raise (FileNotFoundError path), w)
  end.

(** [os.path.samefile] on a path that exists: the other path is the same
    path, or another spelling of it. *)
Definition samefile (p q : string) (w : World) : bool :=
  bool_decide (p = q) || aliases w p q.

(** [shutil.copy2(src, dst)] on file paths: a missing source raises when it
    is opened; a destination that is the source file itself, under any
    spelling, raises [SameFileError] before anything is written. *)
Definition copy2 (src dst : string) : M unit := fun w =>
  match fs w !! src with
  | None => (Raise (FileNotFoundError src), w)
  | Some data =>
      if samefile src dst w then (Raise (SameFileError src), w)
      else (Ret tt, write_bytes dst data w)
  end.

End Env.

Import Env.

Notation "'do' x <- m ; k" := (Env.bind m (fun x => k))
  (at level 10, x name, m at level 100, k at level 200, only parsing).
Notation "'do_' m ; k" := (Env.bind m (fun _ => k))
  (at level 10, m at level 100, k at level 200, only parsing).

(** ** DDSHandler *)

Module DDSHandler.

(** The class attribute [DXGI_FORMAT]. *)
Definition DXGI_FORMAT : list (Z * string) :=
  [ (0, "DXGI_FORMAT_UNKNOWN"); (26, "DXGI_FORMAT_R11G11B10_FLOAT");
    (61, "DXGI_FORMAT_R8_UNORM");
    (71, "DXGI_FORMAT_BC1_UNORM"); (77, "DXGI_FORMAT_BC3_UNORM");
    (80, "DXGI_FORMAT_BC4_UNORM"); (83, "DXGI_FORMAT_BC5_UNORM");
    (91, "DXGI_FORMAT_B8G8R8A8_UNORM_SRGB");
    (87, "DXGI_FORMAT_B8G8R8A8_TYPELESS") ].

(** [DXGI_FORMAT.get(code, dflt)] *)
Definition DXGI_FORMAT_get (code : Z) (dflt : string) : string :=
  match List.find (fun kv => fst kv =? code) DXGI_FORMAT with
  | Some kv => snd kv
  | None => dflt
  end.

(** The dictionary [get_dds_info] returns. *)
Record DDSInfo : Type := mkDDSInfo {
  width : Z;
  height : Z;
  mipmaps : Z;
  format : string;
  file_size : Z;
  format_code : option Z;
  is_problematic : bool
}.

(** A bytes literal such as [b'DDS ']. *)
Definition b (s : string) : list byte := list_byte_of_string s.

(** The body of [get_dds_info] once the file is open: [data] is the content
    of the file, read front to back by [f.read(4)], [f.read(124)] and
    [f.read(20)]. *)
Definition parse_dds (data : list byte) : pyresult (option DDSInfo) :=
  let signature := take 4 data in
  if negb (bool_decide (signature = b "DDS ")) then Ret None else
  let header := take 124 (drop 4 data) in
  if len header <? 124 then Ret None else
  height ← struct_unpack_I (slice 8 12 header);
  width ← struct_unpack_I (slice 12 16 header);
  mipmap_count ← struct_unpack_I (slice 24 28 header);
  pixel_format_flags ← struct_unpack_I (slice 76 80 header);
  let four_cc := slice 80 84 header in
  let ret_info (format_name : string) (format_code : option Z)
               (is_problematic : bool) :=
    Ret (Some (mkDDSInfo width height mipmap_count format_name (len data)
                         format_code is_problematic)) in
  if bool_decide (four_cc = b "DXT1") then ret_info "BC1/DXT1" None false
  else if bool_decide (four_cc = b "DXT3") then ret_info "BC2/DXT3" None false
  else if bool_decide (four_cc = b "DXT5") then ret_info "BC3/DXT5" None false
  else if bool_decide (four_cc = b "DX10") then
    let extended_header := take 20 (drop 128 data) in
    if 20 <=? len extended_header then
      format_code ← struct_unpack_I (slice 0 4 extended_header);
      let format_name :=
        DXGI_FORMAT_get format_code ("DXGI Format " +:+ pretty format_code) in
      ret_info format_name (Some format_code)
               (bool_decide (format_code ∈ [26; 72; 78; 87]))
    else ret_info "Unknown" None false
  else if negb (Z.land pixel_format_flags 0x40 =? 0) then
    ret_info "RGB" None false
  else ret_info "Unknown" None false.

(** [get_dds_info]: a file that cannot be opened, or any other exception,
    gives [None]. *)
Definition get_dds_info (file_path : string) (w : World) : option DDSInfo :=
  match fs w !! file_path with
  | None => None
  | Some data =>
      match parse_dds data with
      | Ret info => info
      | Raise _ => None
      end
  end.

End DDSHandler.

(** ** ASTCTools *)

Module ASTCTools.

(** [calculate_astc_size]: [//] raises on a zero block dimension. *)
Definition calculate_astc_size (width height block_w block_h : Z) : pyresult Z :=
  if block_w =? 0 then Raise ZeroDivisionError else
  let blocks_x := (width + block_w - 1) / block_w in
  if block_h =? 0 then Raise ZeroDivisionError else
  let blocks_y := (height + block_h - 1) / block_h in
  Ret (blocks_x * blocks_y * 16).

(** [pad_to_size] *)
Definition pad_to_size (data : list byte) (target_size : Z) : list byte :=
  let current_size := len data in
  if current_size <? target_size then
    let padding := repeat x00 (Z.to_nat (target_size - current_size)) in
    data ++ padding
  else if target_size <? current_size then
    slice_to target_size data
  else data.

(** The header that [wrap_raw_astc] builds before it reads the raw file. *)
Definition astc_header (width height block_width block_height : Z)
  : pyresult (list byte) :=
  magic ← struct_pack_I 0x5CA1AB13;
  block_dims ← struct_pack_3B block_width block_height 1;
  let dim3 x := (p ← struct_pack_I x; Ret (take 3 p)) in
  w3 ← dim3 width;
  h3 ← dim3 height;
  d3 ← dim3 1;
  let image_dims := w3 ++ h3 ++ d3 in
  Ret (magic ++ block_dims ++ image_dims).

(** The bytes literal [b'\x13\xAB\xA1\x5C'] of [encode_texture]. *)
Definition astc_magic : list byte := [x13; xab; xa1; x5c].

(** The header test and strip of [encode_texture]:
    [if len(astc_data) > 16 and astc_data[:4] == magic: astc_data[16:]]. *)
Definition strip_astc_header (astc_data : list byte) : list byte :=
  if (16 <? len astc_data) && bool_decide (take 4 astc_data = astc_magic)
  then drop 16 astc_data
  else astc_data.

(** [find_texture_info]: the loop over [suffixes]. *)
Definition suffixes : list string :=
  ["_d"; "_n"; "_s"; "_e"; "_a"; "_r"; "_m"; "_h"].

Fixpoint find_by_suffix (texture_name : string)
    (mapping : gmap string TextureInfo) (sfx : list string)
  : option TextureInfo :=
  match sfx with
  | [] => None
  | suffix :: rest =>
      if endswith texture_name suffix then
        let base_name := drop_last (String.length suffix) texture_name in
        match mapping !! base_name with
        | Some info => Some info
        | None => find_by_suffix texture_name mapping rest
        end
      else find_by_suffix texture_name mapping rest
  end.

Definition find_texture_info (texture_name : string)
    (mapping : gmap string TextureInfo) : option TextureInfo :=
  match mapping !! texture_name with
  | Some info => Some info
  | None => find_by_suffix texture_name mapping suffixes
  end.

(** [get_common_block_sizes] *)
Definition get_common_block_sizes : list (Z * Z) :=
  [(4, 4); (8, 8); (6, 6); (5, 5); (10, 10); (12, 12); (5, 4); (6, 5);
   (8, 5); (8, 6); (10, 5); (10, 6); (10, 8)].

(** The table [configurations] of [brute_force_decode]. *)
Definition configurations : list (Z * Z * Z * Z * string) :=
  [ (2048, 1024, 8, 8, "2Kx1K_8x8"); (2048, 1024, 6, 6, "2Kx1K_6x6");
    (2048, 1024, 4, 4, "2Kx1K_4x4");
    (1024, 512, 8, 8, "1Kx512_8x8"); (1024, 512, 6, 6, "1Kx512_6x6");
    (1024, 512, 4, 4, "1Kx512_4x4");
    (2048, 2048, 8, 8, "2K_square_8x8"); (1024, 1024, 8, 8, "1K_square_8x8") ].

(** Python truth value of an optional string and of an optional integer. *)
Definition truthy_str (s : option string) : bool :=
  match s with
  | Some s => negb (String.eqb s "")
  | None => false
  end.

Definition truthy_int (n : option Z) : bool :=
  match n with
  | Some n => negb (n =? 0)
  | None => false
  end.

Section Codec.

(** [astcenc -dl wrapped output]: a run of the decoder on the content of the
    wrapped file. *)
Variable astcenc_decode : list byte -> ToolRun.

(** [astcenc -cl input temp {bw}x{bh} -{quality} -silent]: a run of the
    encoder on the content of the input image ([None]: no such file). *)
Variable astcenc_encode : option (list byte) -> Z -> Z -> string -> ToolRun.

(** Whether [Path.write_bytes] can open a path for writing: its directory
    exists and lets the program create or overwrite the file.  Directories
    are not part of [fs]. *)
Variable can_write : string -> bool.

(** [Path(p).stem] and [dir / name] of [pathlib]. *)
Variable path_stem : string -> string.
Variable path_join : string -> string -> string.

(** [wrap_raw_astc]: [Some wrapped] stands for [True], with [wrapped] the
    content written to [wrapped_path]; [None] stands for [False].  The
    wrapped file is the caller's private temporary file, created and removed
    inside one call of [decode_with_config], so it is kept out of [fs]. *)
Definition wrap_raw_astc (raw_path : string)
    (width height block_width block_height : Z) (w : World)
  : option (list byte) :=
  match astc_header width height block_width block_height with
  | Raise _ => None
  | Ret header =>
      match fs w !! raw_path with
      | None => None
      | Some data => Some (header ++ data)
      end
  end.

(** The call of [run_hidden_command] in [decode_with_config]. *)
Definition run_astcenc_decode (wrapped : list byte) (output_file : string)
    (w : World) : Z * World :=
  let r := astcenc_decode wrapped in
  let w1 := log_call (AstcencDecode wrapped output_file) w in
  (run_hidden_command (outcome r),
   match produced r with
   | Some out => write_bytes output_file out w1
   | None => w1
   end).

(** [decode_with_config] *)
Definition decode_with_config (raw_file output_file : string)
    (width height block_w block_h : Z) (cache_key : option string)
    (w : World) : bool * World :=
  match wrap_raw_astc raw_file width height block_w block_h w with
  | None => (false, w)
  | Some wrapped =>
      let '(returncode, w1) := run_astcenc_decode wrapped output_file w in
      if (returncode =? 0) && file_exists output_file w1 then
        let file_size := len (default [] (fs w1 !! output_file)) in
        if 1000 <? file_size then
          if truthy_str cache_key then
            match fs w1 !! raw_file with
            | Some raw =>
                let record :=
                  mkDecodeParams width height block_w block_h (len raw) in
                (true, set_cache (<[default "" cache_key := record]>
                                    (DECODE_CACHE w1)) w1)
            | None =>
                (* [raw_file.stat()] raises: the [except] branch *)
                (false, unlink output_file w1)
            end
          else (true, w1)
        else (false, unlink output_file w1)
      else
        (false,
         if file_exists output_file w1 then unlink output_file w1 else w1)
  end.

(** The [for] loop of [decode_with_mapping]. *)
Fixpoint decode_with_mapping_loop (block_sizes : list (Z * Z))
    (texture_file output_path : string) (pcvr_width pcvr_height : Z)
    (texture_name : string) (w : World) : bool * World :=
  match block_sizes with
  | [] => (false, w)
  | (block_w, block_h) :: rest =>
      let output_file :=
        path_join output_path (path_stem texture_file +:+ ".png") in
      let '(ok, w1) :=
        decode_with_config texture_file output_file pcvr_width pcvr_height
                           block_w block_h (Some texture_name) w in
      if ok then (true, w1)
      else decode_with_mapping_loop rest texture_file output_path
                                    pcvr_width pcvr_height texture_name w1
  end.

(** [decode_with_mapping] *)
Definition decode_with_mapping (texture_file output_path : string)
    (mapping : gmap string TextureInfo) (w : World) : bool * World :=
  let texture_name := path_stem texture_file in
  match find_texture_info texture_name mapping with
  | None => (false, w)
  | Some texture_info =>
      let pcvr_width := info_width texture_info in
      let pcvr_height := info_height texture_info in
      decode_with_mapping_loop get_common_block_sizes texture_file
                               output_path pcvr_width pcvr_height
                               texture_name w
  end.

(** The [for] loop of [brute_force_decode]. *)
Fixpoint brute_force_loop (configs : list (Z * Z * Z * Z * string))
    (texture_file output_path : string) (file_size : Z) : M bool :=
  match configs with
  | [] => ret false
  | (width, height, block_w, block_h, desc) :: rest =>
      do expected_size <-
        lift (calculate_astc_size width height block_w block_h);
      if 100 <? Z.abs (expected_size - file_size) then
        brute_force_loop rest texture_file output_path file_size
      else
        let output_file :=
          path_join output_path
                    (path_stem texture_file +:+ "_BF_" +:+ desc +:+ ".png") in
        do ok <- (fun w =>
                    let '(ok, w1) :=
                      decode_with_config texture_file output_file width height
                        block_w block_h (Some (path_stem texture_file)) w in
                    (Ret ok, w1));
        if ok then ret true
        else brute_force_loop rest texture_file output_path file_size
  end.

(** [brute_force_decode]: it has no handler of its own, so a missing texture
    file raises out of it. *)
Definition brute_force_decode (texture_file output_path : string) : M bool :=
  do file_size <- getsize texture_file;
  brute_force_loop configurations texture_file output_path file_size.

(** [output_file.write_bytes(raw_data)] followed by [return True]; when the
    file cannot be opened the [except] branch returns [False]. *)
Definition write_output (output_file : string) (raw_data : list byte)
    (w : World) : bool * World :=
  if can_write output_file then (true, write_bytes output_file raw_data w)
  else (false, w).

(** [encode_texture].  The temporary file the encoder writes to is created
    empty by [NamedTemporaryFile] and removed in [finally]; it is kept out of
    [fs]. *)
Definition encode_texture (input_png output_file : string)
    (width height block_w block_h : Z) (quality : string)
    (target_size : option Z) (w : World) : bool * World :=
  let r := astcenc_encode (fs w !! input_png) block_w block_h quality in
  let w1 := log_call (AstcencEncode input_png block_w block_h quality) w in
  if negb (run_hidden_command (outcome r) =? 0) then (false, w1) else
  let astc_data := default [] (produced r) in
  let raw_data := strip_astc_header astc_data in
  if truthy_int target_size then
    match calculate_astc_size width height block_w block_h with
    | Raise _ => (false, w1)
    | Ret expected_size =>
        let target_size := default 0 target_size in
        let raw_data :=
          if negb (len raw_data =? target_size)
          then pad_to_size raw_data target_size
          else raw_data in
        write_output output_file raw_data w1
    end
  else write_output output_file raw_data w1.

(** [encode_with_cache] *)
Definition encode_with_cache (input_png output_file texture_name : string)
    (quality : string) (w : World) : bool * World :=
  match DECODE_CACHE w !! texture_name with
  | None => (false, w)
  | Some config =>
      encode_texture input_png output_file
        (cache_width config) (cache_height config)
        (cache_block_w config) (cache_block_h config)
        quality (Some (cache_original_size config)) w
  end.

End Codec.

End ASTCTools.


(** ** TextureReplacer *)

Module TextureReplacer.

Import DDSHandler ASTCTools.

(** The message of a [(success, message)] result; the comments give the text
    the source builds. *)
Inductive Message : Type :=
| CouldNotReadOriginal
    (* "Could not read original texture dimensions" *)
| ConversionFailed
    (* "DDS conversion via texconv.exe failed. Check tool and file paths." *)
| PcvrReplaced (replacement_size : Z)
    (* f"PCVR texture replaced. Size updated to {replacement_size} bytes." *)
| FailedToUpdateFileSize
    (* "Failed to update file size" *)
| CorrespondingFileNotFound
    (* "Corresponding file not found" *)
| PcvrReplacementError (e : PyExn)
    (* f"PCVR replacement error: {str(e)}" *)
| AstcencNotFound
    (* "astcenc not found" *)
| FailedToEncode
    (* "Failed to encode/find texture info" *)
| QuestReplaced (final_size : Z)
    (* f"Quest texture replaced. Size updated to {final_size} bytes." *)
| QuestReplacementError (e : PyExn).
    (* f"Quest replacement error: {str(e)}" *)

(** [hex_edit_file_size]: the file is rewritten as a whole from the patched
    bytearray; a file that cannot be opened, or a [new_size] that
    [struct.pack] refuses, ends in the handler, which returns [False]. *)
Definition hex_edit_file_size (file_path : string) (new_size : Z) (w : World)
  : bool * World :=
  match fs w !! file_path with
  | None => (false, w)
  | Some data =>
      if 248 <=? len data then
        match struct_pack_I new_size with
        | Raise _ => (false, w)
        | Ret file_size_bytes =>
            let data := take 244 data ++ file_size_bytes ++ drop 248 data in
            (true, write_bytes file_path data w)
        end
      else (false, w)
  end.

(** A value a module-level name is bound to: a string, or something else
    (a module, a function, a class, a dictionary, a boolean). *)
Inductive PyVal : Type :=
| VStr (s : string)
| VOther.

Fixpoint assoc (x : string) (l : list (string * PyVal)) : option PyVal :=
  match l with
  | [] => None
  | (k, v) :: rest => if String.eqb k x then Some v else assoc x rest
  end.

(** [os.path.join(d, name)] where [d] is the value of a global name. *)
Definition join_val (join : string -> string -> string) (d : PyVal)
    (name : string) : pyresult string :=
  match d with
  | VStr d => Ret (join d name)
  | VOther => Raise TypeError
  end.

Section Replacer.

Variable astcenc_decode : list byte -> ToolRun.
Variable astcenc_encode : option (list byte) -> Z -> Z -> string -> ToolRun.

(** [os.path.join], [os.path.basename] and the root part of
    [os.path.splitext]. *)
Variable os_path_join : string -> string -> string.
Variable os_path_basename : string -> string.
Variable os_path_splitext : string -> string.

(** [tempfile.gettempdir()], [get_settings_path], [get_cache_dir()],
    [TextureLoader.get_astcenc_path()] and the mapping read from
    [MAPPING_FILE] (empty when the file is missing or unreadable). *)
Variable gettempdir : string.
Variable get_settings_path : string -> string.
Variable get_cache_dir : string.
Variable astcenc_path : string.
Variable mapping : gmap string TextureInfo.

(** What [convert_to_dds] makes of a source image ([None]: no such file) for
    the target dimensions: the content of the new DDS file, or [None] where
    it returns [(None, 0)]; and the path it copies the result to. *)
Variable texconv : option (list byte) -> Z -> Z -> option (list byte).
Variable pcvr_replace_path : string -> string.

(** The names bound at module level, in source order: imports, settings
    constants, functions and classes. *)
Definition module_globals : list (string * PyVal) :=
  [ ("os", VOther); ("sys", VOther); ("struct", VOther); ("tk", VOther);
    ("ttk", VOther); ("filedialog", VOther); ("messagebox", VOther);
    ("scrolledtext", VOther); ("shutil", VOther); ("tempfile", VOther);
    ("subprocess", VOther); ("threading", VOther); ("json", VOther);
    ("glob", VOther); ("time", VOther); ("zipfile", VOther);
    ("urllib", VOther); ("webbrowser", VOther); ("Path", VOther);
    ("ThreadPoolExecutor", VOther); ("as_completed", VOther);
    ("Image", VOther); ("ImageTk", VOther); ("ImageDraw", VOther);
    ("ImageFont", VOther); ("HAS_PIL", VOther);
    ("SETTINGS_DIR_NAME", VStr "Settings");
    ("get_base_dir", VOther); ("get_settings_path", VOther);
    ("get_tool_path", VOther); ("get_cache_dir", VOther);
    ("CONFIG_FILE", VStr (get_settings_path "config.json"));
    ("CACHE_DIR", VStr get_cache_dir);
    ("CACHE2_FILE", VStr (get_settings_path "cache2.json"));
    ("LEGACY_CACHE_FILE", VStr (get_settings_path "cache.json"));
    ("MAPPING_FILE", VStr (get_settings_path "texture_mapping.json"));
    ("APP_VERSION", VStr "2.0.0");
    ("GITHUB_REPO", VStr "heisthecat31/EchoVR-Texture-Editor");
    ("GITHUB_API_URL",
     VStr "https://api.github.com/repos/heisthecat31/EchoVR-Texture-Editor/releases/latest");
    ("DECODE_CACHE", VOther);
    ("compare_versions", VOther); ("check_for_updates", VOther);
    ("_dir_nonempty", VOther); ("run_hidden_command", VOther);
    ("TextureCacheManager", VOther); ("ConfigManager", VOther);
    ("TutorialPopup", VOther); ("ProgressDialog", VOther);
    ("UpdateNotificationDialog", VOther); ("UpdateEchoPopup", VOther);
    ("ADBPlatformTools", VOther); ("ADBManager", VOther);
    ("ASTCTools", VOther); ("EVRToolsManager", VOther);
    ("DDSHandler", VOther); ("TextureLoader", VOther);
    ("TextureReplacer", VOther); ("TextureGridPopup", VOther);
    ("EchoVRTextureViewer", VOther); ("main", VOther) ].

(** Reading a name that the function never assigns: it is looked up among the
    module's globals (no built-in has either of the names read this way
    below), and [NameError] is raised when it is not there. *)
Definition load_global (name : string) : M PyVal :=
  match assoc name module_globals with
  | Some v => ret v
  | None => raise (NameError name)
  end.

(** [tempfile.gettempdir()] is a directory in which Python has created,
    written and removed a file before it returned it: the encoder's output,
    which goes directly under it, can be written. *)
Definition tempdir_writable (path : string) : bool := true.

(** [convert_to_dds]: [Some (path, size)] or [None] for [(None, 0)]. *)
Definition convert_to_dds (source_path : string)
    (target_width target_height : Z) : M (option (string * Z)) := fun w =>
  let w1 := log_call (ConvertToDDS source_path target_width target_height) w in
  match texconv (fs w !! source_path) target_width target_height with
  | None => (Ret None, w1)
  | Some dds =>
      let final_path := pcvr_replace_path source_path in
      (Ret (Some (final_path, len dds)), write_bytes final_path dds w1)
  end.

(** The [try] block of [replace_pcvr_texture]. *)
Definition replace_pcvr_texture_try
    (output_folder pcvr_input_folder original_texture_path
     replacement_texture_path : string) (replacement_size : option Z)
  : M (bool * Message) :=
  do orig_info <- gets (get_dds_info original_texture_path);
  match orig_info with
  | None => ret (false, CouldNotReadOriginal)
  | Some orig_info =>
  let target_w := width orig_info in
  let target_h := height orig_info in
  do is_dds <- gets (fun w =>
    endswith (lower replacement_texture_path) ".dds"
    && file_exists replacement_texture_path w);
  do repl_info <- gets (fun w =>
    if is_dds then get_dds_info replacement_texture_path w else None);
  let needs_convert :=
    negb is_dds
    || match repl_info with
       | Some repl_info =>
           negb (width repl_info =? target_w)
           || negb (height repl_info =? target_h)
       | None => false
       end in
  do chosen <-
    (if needs_convert || negb is_dds then
       convert_to_dds replacement_texture_path target_w target_h
     else
       do size <- match replacement_size with
                  | None => getsize replacement_texture_path
                  | Some size => ret size
                  end;
       ret (Some (replacement_texture_path, size)));
  match chosen with
  | None => ret (false, ConversionFailed)
  | Some (dds_path, replacement_size) =>
  let input_textures_folder :=
    os_path_join pcvr_input_folder "beac1969cb7b8861" in
  let input_corresponding_folder :=
    os_path_join pcvr_input_folder "4a4c32c49300b8a0" in
  let texture_name := os_path_basename original_texture_path in
  let output_corresponding_file :=
    os_path_join (os_path_join output_folder "4a4c32c49300b8a0")
                 texture_name in
  let input_texture_path := os_path_join input_textures_folder texture_name in
  let input_corresponding_path :=
    os_path_join input_corresponding_folder texture_name in
  do_ copy2 dds_path input_texture_path;
  do_ modify (fun w =>
    if negb (String.eqb dds_path replacement_texture_path)
       && file_exists dds_path w
    then unlink dds_path w else w);
  do present <- gets (file_exists output_corresponding_file);
  if present then
    do_ copy2 output_corresponding_file input_corresponding_path;
    do patched <- (fun w =>
      let '(ok, w1) :=
        hex_edit_file_size input_corresponding_path replacement_size w in
      (Ret ok, w1));
    if patched then ret (true, PcvrReplaced replacement_size)
    else ret (false, FailedToUpdateFileSize)
  else ret (false, CorrespondingFileNotFound)
  end
  end.

(** [replace_pcvr_texture] *)
Definition replace_pcvr_texture
    (output_folder pcvr_input_folder original_texture_path
     replacement_texture_path : string) (replacement_size : option Z)
    (w : World) : (bool * Message) * World :=
  match replace_pcvr_texture_try output_folder pcvr_input_folder
          original_texture_path replacement_texture_path replacement_size w
  with
  | (Ret r, w') => (r, w')
  | (Raise e, w') => ((false, PcvrReplacementError e), w')
  end.

(** The [try] block of [replace_quest_texture]. *)
Definition replace_quest_texture_try
    (output_folder quest_input_folder original_texture_path
     replacement_texture_path : string) : M (bool * Message) :=
  let input_textures_folder :=
    os_path_join quest_input_folder "489b7b69cb19e0e9" in
  let input_corresponding_folder :=
    os_path_join quest_input_folder "e2ef0854d0cd69b8" in
  let texture_name := os_path_basename original_texture_path in
  do original_size <- getsize original_texture_path;
  if String.eqb astcenc_path "" then ret (false, AstcencNotFound) else
  let temp_output := os_path_join gettempdir ("encoded_" +:+ texture_name) in
  let texture_name_no_ext := os_path_splitext texture_name in
  do success <- (fun w =>
    let '(ok, w1) :=
      if bool_decide (is_Some (DECODE_CACHE w !! texture_name_no_ext)) then
        encode_with_cache astcenc_encode tempdir_writable
                          replacement_texture_path temp_output
                          texture_name_no_ext "medium" w
      else if negb (bool_decide (mapping = ∅)) then
        match mapping !! texture_name_no_ext with
        | Some info =>
            encode_texture astcenc_encode tempdir_writable
                           replacement_texture_path temp_output
                           (info_width info) (info_height info) 8 8 "medium"
                           (Some original_size) w
        | None => (false, w)
        end
      else (false, w) in
    (Ret ok, w1));
  if negb success then ret (false, FailedToEncode) else
  do dest_textures_folder <- load_global "dest_textures_folder";
  do dest_texture_path <-
    lift (join_val os_path_join dest_textures_folder texture_name);
  do_ copy2 temp_output dest_texture_path;
  let input_texture_path := os_path_join input_textures_folder texture_name in
  do_ copy2 temp_output input_texture_path;
  do final_size <- getsize temp_output;
  do dest_corresponding_folder <- load_global "dest_corresponding_folder";
  do dest_corresponding_path <-
    lift (join_val os_path_join dest_corresponding_folder texture_name);
  do_ modify (fun w =>
    if file_exists dest_corresponding_path w
    then snd (hex_edit_file_size dest_corresponding_path final_size w)
    else w);
  let output_corresponding_file :=
    os_path_join (os_path_join output_folder "e2ef0854d0cd69b8")
                 texture_name in
  do present <- gets (file_exists output_corresponding_file);
  do_ (if present then
         let input_corresponding_path :=
           os_path_join input_corresponding_folder texture_name in
         do_ copy2 output_corresponding_file input_corresponding_path;
         modify (fun w =>
           snd (hex_edit_file_size input_corresponding_path final_size w))
       else ret tt);
  do_ modify (unlink temp_output);
  ret (true, QuestReplaced final_size).

(** [replace_quest_texture] (its last parameter, [texture_cache], is never
    read). *)
Definition replace_quest_texture
    (output_folder quest_input_folder original_texture_path
     replacement_texture_path : string) (w : World)
  : (bool * Message) * World :=
  match replace_quest_texture_try output_folder quest_input_folder
          original_texture_path replacement_texture_path w
  with
  | (Ret r, w') => (r, w')
  | (Raise e, w') => ((false, QuestReplacementError e), w')
  end.

End Replacer.

End TextureReplacer.

(** ** Version comparison *)

Module Versions.

(** [s.split('.')]: the pieces between the dots; an empty string gives one
    empty piece. *)
Fixpoint split_dot (s : string) : list string :=
  match s with
  | EmptyString => [EmptyString]
  | String c rest =>
      if Ascii.eqb c "." then EmptyString :: split_dot rest
      else match split_dot rest with
           | first :: others => String c first :: others
           | [] => [String c EmptyString]
           end
  end.

(** [[int(x) for x in pieces]]: the first piece [int] refuses raises. *)
Fixpoint parse_all (int : string -> option Z) (pieces : list string)
  : option (list Z) :=
  match pieces with
  | [] => Some []
  | x :: rest =>
      match int x with
      | None => None
      | Some n =>
          match parse_all int rest with
          | None => None
          | Some ns => Some (n :: ns)
          end
      end
  end.

(** [while len(parts) < n: parts.append(0)] *)
Definition pad_zeros (n : nat) (parts : list Z) : list Z :=
  Nat.iter (n - length parts) (fun l => l ++ [0]) parts.

(** The [for p1, p2 in zip(parts1, parts2)] loop and the final
    [return False]. *)
Fixpoint first_difference (parts1 parts2 : list Z) : bool :=
  match parts1, parts2 with
  | p1 :: rest1, p2 :: rest2 =>
      if p1 <? p2 then true
      else if p2 <? p1 then false
      else first_difference rest1 rest2
  | _, _ => false
  end.

Section CompareVersions.

(** The built-in [int] on a string: [None] where it raises [ValueError]. *)
Variable int : string -> option Z.

(** [compare_versions]: any exception gives [False]. *)
Definition compare_versions (v1 v2 : string) : bool :=
  match parse_all int (split_dot v1) with
  | None => false
  | Some parts1 =>
      match parse_all int (split_dot v2) with
      | None => false
      | Some parts2 =>
          let parts1 := pad_zeros (length parts2) parts1 in
          let parts2 := pad_zeros (length parts1) parts2 in
          first_difference parts1 parts2
      end
  end.

End CompareVersions.

End Versions.

(** ** The texture list of the viewer *)

Module Viewer.

(** [data.startswith(prefix)] on bytes. *)
Definition startswith (data prefix : list byte) : bool :=
  bool_decide (take (length prefix) data = prefix).

(** [needle in data] on bytes. *)
Fixpoint contains (needle data : list byte) : bool :=
  startswith data needle
  || match data with
     | [] => false
     | _ :: rest => contains needle rest
     end.

(** The bytes [bytes.strip()] removes: space, tab, newline, carriage return,
    vertical tab and form feed. *)
Definition is_space (c : byte) : bool :=
  bool_decide (c ∈ [x20; x09; x0a; x0d; x0b; x0c]).

Fixpoint lstrip (data : list byte) : list byte :=
  match data with
  | [] => []
  | c :: rest => if is_space c then lstrip rest else data
  end.

(** [data.strip()] *)
Definition strip (data : list byte) : list byte :=
  rev (lstrip (rev (lstrip data))).

(** [_is_valid_texture_file], with the two mode flags of the viewer. *)
Definition is_valid_texture_file (is_pcvr_textures is_quest_textures : bool)
    (file_path : string) (w : World) : bool :=
  match fs w !! file_path with
  | None => false
  | Some data =>
      let size := len data in
      if size =? 0 then false
      else if negb is_pcvr_textures && negb is_quest_textures then true
      else
        let header := take 16 data in
        if is_pcvr_textures then startswith header (DDSHandler.b "DDS ")
        else if is_quest_textures then
          if startswith header [x13; xab; xa1; x5c] then true
          else if startswith header (xab :: DDSHandler.b "KTX 11")
                  || startswith header (xab :: DDSHandler.b "KTX 20")
          then true
          else if contains (DDSHandler.b "BcBP") header then true
          else if startswith header (DDSHandler.b "PVR") then true
          else if size mod 16 =? 0 then
            if startswith (strip header) (DDSHandler.b "{")
               || startswith (strip header) (DDSHandler.b "<")
            then false
            else true
          else false
        else true
  end.

(** The page arithmetic of [TextureGridPopup]; the widgets it updates are
    not modelled. *)
Definition GRID_COLS : Z := 8.
Definition ROWS_PER_PAGE : Z := 12.
Definition TEXTURES_PER_PAGE : Z := GRID_COLS * ROWS_PER_PAGE.

(** [total_pages] as [__init__] computes it from the number of files. *)
Definition total_pages (n : Z) : Z :=
  Z.max 1 ((n + TEXTURES_PER_PAGE - 1) / TEXTURES_PER_PAGE).

(** [start_idx] and [end_idx] of [load_page]. *)
Definition page_bounds (page_num n : Z) : Z * Z :=
  let start_idx := page_num * TEXTURES_PER_PAGE in
  let end_idx := Z.min (start_idx + TEXTURES_PER_PAGE) n in
  (start_idx, end_idx).

(** The page [prev_page] and [next_page] leave as current. *)
Definition prev_page (current_page : Z) : Z :=
  if 0 <? current_page then current_page - 1 else current_page.

Definition next_page (current_page total : Z) : Z :=
  if current_page <? total - 1 then current_page + 1 else current_page.

End Viewer.

(** ** The directory listing cache *)

Module TextureCacheManager.

(** The dictionary stored in [CACHE2_FILE]: folder path to file names, in
    insertion order.  The state is what [json.load] makes of the file:
    [None] when the file is missing or cannot be parsed. *)
Definition Listing : Type := list (string * list string).

(** [load_cache] *)
Definition load_cache (stored : option Listing) : Listing :=
  match stored with
  | Some cache => cache
  | None => []
  end.

(** [cache[key] = value] on a dictionary: an existing key keeps its place. *)
Fixpoint dict_set (key : string) (value : list string) (cache : Listing)
  : Listing :=
  match cache with
  | [] => [(key, value)]
  | (k, v) :: rest =>
      if String.eqb k key then (k, value) :: rest
      else (k, v) :: dict_set key value rest
  end.

Section Cache.

(** [os.path.normpath] and [str.lower], which folds every cased character,
    not only the ASCII letters. *)
Variable normpath : string -> string.
Variable str_lower : string -> string.

(** The [for key in cache] loop of [get_cached_files]. *)
Fixpoint first_match (norm_path : string) (cache : Listing)
  : option (list string) :=
  match cache with
  | [] => None
  | (key, files) :: rest =>
      if String.eqb (str_lower (normpath key)) norm_path then Some files
      else first_match norm_path rest
  end.

(** [get_cached_files] *)
Definition get_cached_files (folder_path : string) (stored : option Listing)
  : option (list string) :=
  let cache := load_cache stored in
  match cache with
  | [] => None
  | _ => first_match (str_lower (normpath folder_path)) cache
  end.

(** [update_cache], as the new content of the file. *)
Definition update_cache (folder_path : string) (file_list : list string)
    (stored : option Listing) : option Listing :=
  let cache := load_cache stored in
  Some (dict_set (normpath folder_path) file_list cache).

End Cache.

End TextureCacheManager.

(** ** Vocabulary of the specification *)

Module Spec.

(** [ceil(a/b)]: the least integer not below the rational [a/b]. *)
Definition ceil_div (a b : Z) : Z := Qceiling (inject_Z a / inject_Z b).

(** [expectedSize(w,h,bw,bh) = ceil(w/bw)*ceil(h/bh)*16]. *)
Definition expectedSize (w h bw bh : Z) : Z :=
  ceil_div w bw * ceil_div h bh * 16.

(** The unsigned little-endian 32-bit value stored at byte offset [off]. *)
Definition le32_at (off : nat) (data : list byte) : Z :=
  byte_to_Z (nth off data x00)
  + 2 ^ 8 * byte_to_Z (nth (off + 1) data x00)
  + 2 ^ 16 * byte_to_Z (nth (off + 2) data x00)
  + 2 ^ 24 * byte_to_Z (nth (off + 3) data x00).

(** The four bytes of the little-endian encoding of [n]. *)
Definition le32_bytes (n : Z) : list byte :=
  [byte_of_Z (n mod 256); byte_of_Z ((n / 256) mod 256);
   byte_of_Z ((n / 65536) mod 256); byte_of_Z ((n / 16777216) mod 256)].

(** One row of the brute-force table. *)
Definition Config : Type := Z * Z * Z * Z * string.

(** A row is tried when its expected size is within 100 bytes of the size of
    the blob. *)
Definition in_tolerance (file_size : Z) (c : Config) : bool :=
  let '(w, h, bw, bh, _) := c in
  Z.abs (expectedSize w h bw bh - file_size) <=? 100.

(** Decode validation of one wrapped blob: the decoder exits with code 0 and
    leaves an image of more than 1000 bytes. *)
Definition validates (decode : list byte -> ToolRun) (wrapped : list byte)
  : bool :=
  (run_hidden_command (outcome (decode wrapped)) =? 0)
  && match produced (decode wrapped) with
     | Some out => 1000 <? len out
     | None => false
     end.

(** First success wins: the candidates attempted, in order, up to and
    including the first one that succeeds. *)
Fixpoint tried_until {A} (ok : A -> bool) (l : list A) : list A :=
  match l with
  | [] => []
  | x :: rest => if ok x then [x] else x :: tried_until ok rest
  end.

(** The rows [struct.pack] and [//] accept: dimensions of 32 bits and
    positive block sizes of one byte. *)
Definition packable (c : Config) : Prop :=
  let '(w, h, bw, bh, _) := c in
  0 <= w < 2 ^ 32 /\ 0 <= h < 2 ^ 32 /\ 0 < bw <= 255 /\ 0 < bh <= 255.

(** The file the brute-force path decodes row [c] into. *)
Definition bf_output (path_stem : string -> string)
    (path_join : string -> string -> string)
    (texture_file output_path : string) (c : Config) : string :=
  path_join output_path
    (path_stem texture_file +:+ "_BF_" +:+ snd c +:+ ".png").

(** The blob as the decoder sees it for given dimensions. *)
Definition wrapped_blob (raw : list byte) (w h bw bh : Z) : list byte :=
  match ASTCTools.astc_header w h bw bh with
  | Ret header => header ++ raw
  | Raise _ => []
  end.

(** The blob wrapped for row [c], and the cache record of row [c]. *)
Definition config_wrapped (raw : list byte) (c : Config) : list byte :=
  let '(w, h, bw, bh, _) := c in wrapped_blob raw w h bw bh.

Definition config_record (raw : list byte) (c : Config) : DecodeParams :=
  let '(w, h, bw, bh, _) := c in mkDecodeParams w h bw bh (len raw).

End Spec.

(** ** Concrete instances for the examples *)

Module Demo.

Import ASTCTools TextureReplacer.

Fixpoint has_char (c : ascii) (s : string) : bool :=
  match s with
  | EmptyString => false
  | String c' rest => Ascii.eqb c c' || has_char c rest
  end.

(** [os.path.join] of two relative POSIX components. *)
Definition posix_join (a b' : string) : string := a +:+ "/" +:+ b'.

(** [os.path.basename]: what follows the last ["/"]. *)
Fixpoint posix_basename (p : string) : string :=
  match p with
  | EmptyString => EmptyString
  | String c rest =>
      if has_char "/" p then
        if Ascii.eqb c "/" && negb (has_char "/" rest) then rest
        else posix_basename rest
      else p
  end.

Fixpoint strip_ext (s : string) : string :=
  match s with
  | EmptyString => EmptyString
  | String c rest =>
      if has_char "." rest then String c (strip_ext rest)
      else if Ascii.eqb c "." then EmptyString else s
  end.

(** The root of [os.path.splitext]; a leading dot starts no extension. *)
Definition posix_splitext (name : string) : string :=
  match name with
  | EmptyString => EmptyString
  | String c rest => String c (strip_ext rest)
  end.

(** [Path(p).stem] *)
Definition posix_stem (p : string) : string :=
  posix_splitext (posix_basename p).

(** A decoded image of 1001 bytes. *)
Definition png1001 : list byte := repeat x2a 1001.

(** A decoder that accepts every wrapped blob. *)
Definition decode_any (wrapped : list byte) : ToolRun :=
  mkToolRun (Exited 0) (Some png1001).

(** A decoder that accepts only block size 8x8 (bytes 4 and 5 of the
    wrapper) and exits with code 1 otherwise. *)
Definition decode_8x8 (wrapped : list byte) : ToolRun :=
  if bool_decide (slice 4 6 wrapped = [x08; x08])
  then mkToolRun (Exited 0) (Some png1001)
  else mkToolRun (Exited 1) None.

(** A decoder that never finishes in time. *)
Definition decode_timeout (wrapped : list byte) : ToolRun :=
  mkToolRun TimeoutExpired None.

(** An encoder that writes a 16-byte header and one 16-byte block. *)
Definition encode_one_block (input : option (list byte)) (bw bh : Z)
    (quality : string) : ToolRun :=
  mkToolRun (Exited 0)
    (Some ([x13; xab; xa1; x5c; x08; x08; x01; x08; x00; x00; x08; x00; x00;
            x01; x00; x00] ++ repeat x11 16)).

Definition raw16 : list byte := repeat x07 16.

(** A file system on which every file has one spelling. *)
Definition one_spelling (p q : string) : bool := false.

(** A descriptor of 248 zero bytes. *)
Definition descriptor : list byte := repeat x00 248.

(** A mobile texture [foo_d] of one block, its descriptor in the
    rebuild-output tree, and the image to replace it. *)
Definition quest_world : World :=
  mkWorld (<["tex/foo_d" := raw16]>
           (<["out/e2ef0854d0cd69b8/foo_d" := descriptor]>
            (<["new.png" := [x89; x50]]> ∅))) ∅ [] one_spelling.

(** [get_settings_path] of an installation in the current directory. *)
Definition settings_path (filename : string) : string :=
  posix_join "Settings" filename.

Definition foo_mapping : gmap string TextureInfo :=
  {["foo" := mkTextureInfo 8 8]}.

(** The same world after [foo_d] was resolved. *)
Definition quest_world_cached : World :=
  mkWorld (fs quest_world)
          {["foo_d" := mkDecodeParams 8 8 8 8 16]} [] one_spelling.

(** A mobile texture whose size is that of a 1024x512 image in 8x8 blocks. *)
Definition raw_1Kx512 : list byte := repeat x07 (Z.to_nat 131072).

Definition brute_world : World :=
  mkWorld {["tex/bar" := raw_1Kx512]} ∅ [] one_spelling.

(** A desktop header of 128 bytes: height 256, width 512, 5 mipmaps, DXT1. *)
Definition dds_header : list byte :=
  DDSHandler.b "DDS " ++ repeat x00 8 ++ [x00; x01; x00; x00]
  ++ [x00; x02; x00; x00] ++ repeat x00 8 ++ [x05; x00; x00; x00]
  ++ repeat x00 52 ++ DDSHandler.b "DXT1" ++ repeat x00 40.

(** A file named [.dds] that is not a DDS file. *)
Definition not_a_dds : list byte := [x01; x02; x03].

Definition pcvr_world : World :=
  mkWorld (<["out/beac1969cb7b8861/tex1" := dds_header]>
           (<["out/4a4c32c49300b8a0/tex1" := descriptor]>
            (<["new.DDS" := not_a_dds]> ∅))) ∅ [] one_spelling.

(** A [convert_to_dds] that always fails. *)
Definition texconv_none (source : option (list byte)) (w h : Z)
  : option (list byte) := None.

Definition pcvr_temp (source_path : string) : string :=
  "tmp/pcvr_replace_1_" +:+ posix_splitext (posix_basename source_path)
  +:+ ".dds".

(** An encoder that exits with code 1. *)
Definition encode_fails (input : option (list byte)) (bw bh : Z)
    (quality : string) : ToolRun :=
  mkToolRun (Exited 1) None.


(** A desktop header with the [DX10] extension and format code 87. *)
Definition dx10_header : list byte :=
  DDSHandler.b "DDS " ++ repeat x00 8 ++ [x00; x01; x00; x00]
  ++ [x00; x02; x00; x00] ++ repeat x00 8 ++ [x05; x00; x00; x00]
  ++ repeat x00 52 ++ DDSHandler.b "DX10" ++ repeat x00 40
  ++ [x57; x00; x00; x00] ++ repeat x00 16.

Definition dx10_world : World :=
  mkWorld {["tex/dx10" := dx10_header]} ∅ [] one_spelling.

(** The desktop world with two more replacement candidates: a DDS file of
    the dimensions of the original and a PNG image. *)
Definition pcvr_world_more : World :=
  mkWorld (<["same.dds" := dds_header ++ [x01; x02]]>
           (<["new.png" := [x89; x50]]> (fs pcvr_world))) ∅ [] one_spelling.



(** A blob of sixteen bytes that begins with an opening brace. *)
Definition brace_blob : list byte := x7b :: repeat x07 15.

Definition brace_world : World :=
  mkWorld (<["tex/brace" := brace_blob]> (<["tex/empty" := []]> ∅)) ∅ []
          one_spelling.

Fixpoint digits_value (s : string) (acc : Z) : option Z :=
  match s with
  | EmptyString => Some acc
  | String c rest =>
      let n := Z.of_nat (nat_of_ascii c) in
      if (48 <=? n) && (n <=? 57)
      then digits_value rest (10 * acc + (n - 48))
      else None
  end.

(** [int] on strings of decimal digits. *)
Definition int_of_digits (s : string) : option Z :=
  match s with
  | EmptyString => None
  | _ => digits_value s 0
  end.

(** A machine on which only the directory [tmp] exists for writing. *)
Definition under_tmp (path : string) : bool := String.prefix "tmp/" path.

(** A listing cache with one folder. *)
Definition one_folder : option TextureCacheManager.Listing :=
  Some [("C:/Tex", ["a"; "b"])].

End Demo.

(** ** Further vocabulary *)

Module Notions.

(** The unsigned little-endian 24-bit value stored at byte offset [off]. *)
Definition le24_at (off : nat) (data : list byte) : Z :=
  byte_to_Z (nth off data x00)
  + 2 ^ 8 * byte_to_Z (nth (off + 1) data x00)
  + 2 ^ 16 * byte_to_Z (nth (off + 2) data x00).

(** The dimensions [struct.pack] accepts in [wrap_raw_astc]. *)
Definition header_packable (w h bw bh : Z) : Prop :=
  0 <= w < 2 ^ 32 /\ 0 <= h < 2 ^ 32 /\ 0 <= bw <= 255 /\ 0 <= bh <= 255.

(** The file the mapping path decodes into. *)
Definition mapping_output (path_stem : string -> string)
    (path_join : string -> string -> string)
    (texture_file output_path : string) : string :=
  path_join output_path (path_stem texture_file +:+ ".png").

(** The blob wrapped for a block size of the mapping path. *)
Definition block_wrapped (raw : list byte) (w h : Z) (bs : Z * Z)
  : list byte :=
  Spec.wrapped_blob raw w h (fst bs) (snd bs).

End Notions.

(** * Properties *)

(** ** Bytes and [struct] *)

Lemma byte_to_Z_range (x : byte) : 0 <= byte_to_Z x < 256.
Proof.
  unfold byte_to_Z. pose proof (Byte.to_N_bounded x). lia.
Qed.

Lemma byte_to_of_Z (z : Z) : byte_to_Z (byte_of_Z z) = z mod 256.
Proof.
  unfold byte_to_Z, byte_of_Z.
  pose proof (Z.mod_pos_bound z 256 ltac:(lia)) as Hr.
  destruct (Byte.of_N (Z.to_N (z mod 256))) as [y|] eqn:E.
  - apply Byte.to_of_N in E. simpl. rewrite E. lia.
  - apply Byte.of_N_None_iff in E. lia.
Qed.

Lemma byte_of_Z_mod (z : Z) : byte_of_Z (z mod 256) = byte_of_Z z.
Proof. unfold byte_of_Z. now rewrite Z.mod_mod by lia. Qed.

Lemma struct_pack_I_in_range (x : Z) :
  0 <= x < 2 ^ 32 ->
  struct_pack_I x = Ret [byte_of_Z x; byte_of_Z (Z.shiftr x 8);
                         byte_of_Z (Z.shiftr x 16); byte_of_Z (Z.shiftr x 24)].
Proof.
  intros [H0 H1]. unfold struct_pack_I.
  apply Z.leb_le in H0. apply Z.ltb_lt in H1. now rewrite H0, H1.
Qed.

Lemma struct_pack_I_out_of_range (x : Z) :
  ~ (0 <= x < 2 ^ 32) -> struct_pack_I x = Raise StructError.
Proof.
  intros H. unfold struct_pack_I.
  destruct (0 <=? x) eqn:E0; destruct (x <? 2 ^ 32) eqn:E1; simpl; auto.
  apply Z.leb_le in E0. apply Z.ltb_lt in E1. lia.
Qed.

Lemma struct_pack_I_le32_bytes (x : Z) :
  0 <= x < 2 ^ 32 -> struct_pack_I x = Ret (Spec.le32_bytes x).
Proof.
  intros H. rewrite struct_pack_I_in_range by exact H.
  unfold Spec.le32_bytes. rewrite !Z.shiftr_div_pow2 by lia.
  rewrite !byte_of_Z_mod. reflexivity.
Qed.

Lemma struct_unpack_I_nth (bs : list byte) :
  length bs = 4%nat -> struct_unpack_I bs = Ret (Spec.le32_at 0 bs).
Proof.
  intros H. destruct bs as [|b0 [|b1 [|b2 [|b3 [|b4 bs]]]]]; try discriminate.
  unfold struct_unpack_I, Spec.le32_at. simpl nth.
  rewrite !Z.shiftl_mul_pow2 by lia. f_equal. lia.
Qed.

Lemma struct_unpack_pack_I (x : Z) :
  0 <= x < 2 ^ 32 -> struct_unpack_I (Spec.le32_bytes x) = Ret x.
Proof.
  intros H. rewrite struct_unpack_I_nth by reflexivity.
  unfold Spec.le32_at, Spec.le32_bytes. simpl nth.
  rewrite !byte_to_of_Z, !Z.mod_mod by lia. f_equal.
  change 65536 with (256 * 256). change 16777216 with (256 * 256 * 256).
  rewrite <- !Z.div_div by lia.
  pose proof (Z.div_mod x 256 ltac:(lia)).
  pose proof (Z.div_mod (x / 256) 256 ltac:(lia)).
  pose proof (Z.div_mod (x / 256 / 256) 256 ltac:(lia)).
  pose proof (Z.mod_small (x / 256 / 256 / 256) 256) as Hs.
  assert (0 <= x / 256 / 256 / 256 < 256).
  { split.
    - repeat apply Z.div_pos; lia.
    - repeat (apply Z.div_lt_upper_bound; [lia|]). lia. }
  rewrite Hs by assumption. lia.
Qed.

(** [data[off:off+4]] of a long enough buffer is its four bytes from [off]. *)
Lemma slice_4 (off : nat) (data : list byte) :
  (off + 4 <= length data)%nat ->
  struct_unpack_I (slice off (off + 4) data) = Ret (Spec.le32_at off data).
Proof.
  intros H. rewrite struct_unpack_I_nth.
  - unfold Spec.le32_at, slice.
    replace (off + 4 - off)%nat with 4%nat by lia.
    rewrite !nth_firstn, !nth_skipn. simpl Nat.ltb.
    now rewrite Nat.add_0_r.
  - unfold slice. rewrite length_take, length_drop. lia.
Qed.

(** ** Expected size *)

Section ExpectedSize.

Import ASTCTools.

(** The rounding-up division of the source is the ceiling of the quotient. *)
Lemma round_up_div_ceil (a b : Z) :
  0 < b -> (a + b - 1) / b = Spec.ceil_div a b.
Proof.
  intros Hb. unfold Spec.ceil_div, Qceiling.
  assert (E : (- (inject_Z a / inject_Z b) == inject_Z (- a) / inject_Z b)%Q).
  { unfold Qdiv. rewrite inject_Z_opp. ring. }
  rewrite (Qfloor_comp _ _ E), <- Zdiv_Qdiv.
  pose proof (Z.div_mod (a + b - 1) b ltac:(lia)) as H1.
  pose proof (Z.mod_pos_bound (a + b - 1) b Hb) as H2.
  pose proof (Z.div_mod (- a) b ltac:(lia)) as H3.
  pose proof (Z.mod_pos_bound (- a) b Hb) as H4.
  nia.
Qed.

Lemma calculate_astc_size_value (w h bw bh : Z) :
  bw <> 0 -> bh <> 0 ->
  calculate_astc_size w h bw bh
  = Ret ((w + bw - 1) / bw * ((h + bh - 1) / bh) * 16).
Proof.
  intros Hw Hh. unfold calculate_astc_size.
  apply Z.eqb_neq in Hw. apply Z.eqb_neq in Hh. now rewrite Hw, Hh.
Qed.

Lemma blocks_positive (a b : Z) : 0 < a -> 0 < b -> 0 < (a + b - 1) / b.
Proof.
  intros Ha Hb. apply Z.div_str_pos. lia.
Qed.

Lemma blocks_monotone (a a' b : Z) :
  0 < b -> a <= a' -> (a + b - 1) / b <= (a' + b - 1) / b.
Proof.
  intros Hb Hle. apply Z.div_le_mono; lia.
Qed.

(** C7: for positive arguments [calculate_astc_size] is
    [ceil(w/bw) * ceil(h/bh) * 16]; it gives 16 for (4,4,4,4) and 32 for
    (5,4,4,4); and for a fixed block size it is monotonically non-decreasing
    in the width and in the height. *)
Theorem calculate_astc_size_spec (w h bw bh w' h' : Z) :
  0 < w -> 0 < h -> 0 < bw -> 0 < bh -> w <= w' -> h <= h' ->
  calculate_astc_size w h bw bh = Ret (Spec.expectedSize w h bw bh)
  /\ calculate_astc_size 4 4 4 4 = Ret 16
  /\ calculate_astc_size 5 4 4 4 = Ret 32
  /\ (exists s s', calculate_astc_size w h bw bh = Ret s
                   /\ calculate_astc_size w' h bw bh = Ret s' /\ s <= s')
  /\ (exists s s', calculate_astc_size w h bw bh = Ret s
                   /\ calculate_astc_size w h' bw bh = Ret s' /\ s <= s').
Proof.
  intros Hw Hh Hbw Hbh Hww Hhh.
  pose proof (blocks_positive w bw Hw Hbw) as Px.
  pose proof (blocks_positive h bh Hh Hbh) as Py.
  pose proof (blocks_monotone w w' bw Hbw Hww) as Mx.
  pose proof (blocks_monotone h h' bh Hbh Hhh) as My.
  repeat split.
  - rewrite calculate_astc_size_value by lia.
    unfold Spec.expectedSize. now rewrite !round_up_div_ceil by lia.
  - do 2 eexists. rewrite !calculate_astc_size_value by lia.
    repeat split. nia.
  - do 2 eexists. rewrite !calculate_astc_size_value by lia.
    repeat split. nia.
Qed.

Lemma calculate_astc_size_spec_witness :
  calculate_astc_size 5 4 4 4 = Ret (Spec.expectedSize 5 4 4 4)
  /\ calculate_astc_size 4 4 4 4 = Ret 16
  /\ calculate_astc_size 5 4 4 4 = Ret 32
  /\ (exists s s', calculate_astc_size 5 4 4 4 = Ret s
                   /\ calculate_astc_size 9 4 4 4 = Ret s' /\ s <= s')
  /\ (exists s s', calculate_astc_size 5 4 4 4 = Ret s
                   /\ calculate_astc_size 5 8 4 4 = Ret s' /\ s <= s').
Proof.
  apply (calculate_astc_size_spec 5 4 4 4 9 8); lia.
Defined.

End ExpectedSize.

(** ** Padding and truncation *)

Section PadToSize.

Import ASTCTools.

Lemma pad_to_size_short (data : list byte) (n : Z) :
  len data < n ->
  pad_to_size data n = data ++ repeat x00 (Z.to_nat (n - len data)).
Proof.
  intros H. unfold pad_to_size. apply Z.ltb_lt in H. now rewrite H.
Qed.

Lemma pad_to_size_long (data : list byte) (n : Z) :
  0 <= n -> n < len data -> pad_to_size data n = take (Z.to_nat n) data.
Proof.
  intros H0 H. unfold pad_to_size, slice_to.
  assert (E1 : (len data <? n) = false) by (apply Z.ltb_ge; lia).
  assert (E2 : (n <? len data) = true) by (apply Z.ltb_lt; lia).
  assert (E3 : (n <? 0) = false) by (apply Z.ltb_ge; lia).
  now rewrite E1, E2, E3.
Qed.

Lemma pad_to_size_exact (data : list byte) (n : Z) :
  len data = n -> pad_to_size data n = data.
Proof.
  intros H. unfold pad_to_size. subst n. now rewrite Z.ltb_irrefl.
Qed.

Lemma pad_to_size_len (data : list byte) (n : Z) :
  0 <= n -> len (pad_to_size data n) = n.
Proof.
  intros H0. destruct (Z.lt_trichotomy (len data) n) as [H|[H|H]].
  - rewrite pad_to_size_short by exact H. unfold len in *.
    rewrite length_app, repeat_length. lia.
  - now rewrite pad_to_size_exact.
  - rewrite pad_to_size_long by lia. unfold len in *.
    rewrite length_take. lia.
Qed.

(** C6: for a target size [n >= 0], [pad_to_size] appends zero bytes to a
    shorter input, keeps the first [n] bytes of a longer one, returns an input
    of length [n] as it is; its result always has length [n] and applying it
    again changes nothing. *)
Theorem pad_to_size_spec (data : list byte) (n : Z) :
  0 <= n ->
  (len data < n ->
     pad_to_size data n = data ++ repeat x00 (Z.to_nat (n - len data))
     /\ Forall (fun x => x = x00) (drop (length data) (pad_to_size data n))
     /\ take (length data) (pad_to_size data n) = data)
  /\ (n < len data -> pad_to_size data n = take (Z.to_nat n) data)
  /\ (len data = n -> pad_to_size data n = data)
  /\ len (pad_to_size data n) = n
  /\ pad_to_size (pad_to_size data n) n = pad_to_size data n.
Proof.
  intros H0. repeat split.
  - now apply pad_to_size_short.
  - rewrite pad_to_size_short by assumption.
    rewrite drop_app_length. apply Forall_forall.
    intros x Hx. apply list_elem_of_In in Hx. now apply repeat_spec in Hx.
  - rewrite pad_to_size_short by assumption. now rewrite take_app_length.
  - intros H. now apply pad_to_size_long.
  - now apply pad_to_size_exact.
  - now apply pad_to_size_len.
  - apply pad_to_size_exact. now apply pad_to_size_len.
Qed.

Lemma pad_to_size_spec_witness :
  let data := [x01; x02; x03] in
  let n := 5 in
  (len data < n ->
     pad_to_size data n = data ++ repeat x00 (Z.to_nat (n - len data))
     /\ Forall (fun x => x = x00) (drop (length data) (pad_to_size data n))
     /\ take (length data) (pad_to_size data n) = data)
  /\ (n < len data -> pad_to_size data n = take (Z.to_nat n) data)
  /\ (len data = n -> pad_to_size data n = data)
  /\ len (pad_to_size data n) = n
  /\ pad_to_size (pad_to_size data n) n = pad_to_size data n.
Proof.
  apply (pad_to_size_spec [x01; x02; x03] 5). lia.
Defined.

(** A target size is a length.  For a negative one, Python slicing keeps all
    but the last bytes, so the result does not have length [n]. *)
Example pad_to_size_negative_target :
  pad_to_size [x01; x02; x03] (-1) = [x01; x02].
Proof. reflexivity. Qed.

End PadToSize.

(** ** The synthetic wrapper *)

Section Wrapper.

Import ASTCTools.

Lemma struct_pack_3B_in_range (a b' c : Z) :
  0 <= a <= 255 -> 0 <= b' <= 255 -> 0 <= c <= 255 ->
  struct_pack_3B a b' c = Ret [byte_of_Z a; byte_of_Z b'; byte_of_Z c].
Proof.
  intros Ha Hb Hc. unfold struct_pack_3B. simpl forallb.
  replace (0 <=? a) with true by (symmetry; apply Z.leb_le; lia).
  replace (a <=? 255) with true by (symmetry; apply Z.leb_le; lia).
  replace (0 <=? b') with true by (symmetry; apply Z.leb_le; lia).
  replace (b' <=? 255) with true by (symmetry; apply Z.leb_le; lia).
  replace (0 <=? c) with true by (symmetry; apply Z.leb_le; lia).
  replace (c <=? 255) with true by (symmetry; apply Z.leb_le; lia).
  reflexivity.
Qed.

(** The sixteen bytes of the header, for dimensions that [struct.pack]
    accepts. *)
Lemma astc_header_bytes (w h bw bh : Z) :
  0 <= w < 2 ^ 32 -> 0 <= h < 2 ^ 32 -> 0 <= bw <= 255 -> 0 <= bh <= 255 ->
  astc_header w h bw bh
  = Ret ([x13; xab; xa1; x5c]
         ++ [byte_of_Z bw; byte_of_Z bh; x01]
         ++ [byte_of_Z w; byte_of_Z (Z.shiftr w 8); byte_of_Z (Z.shiftr w 16)]
         ++ [byte_of_Z h; byte_of_Z (Z.shiftr h 8); byte_of_Z (Z.shiftr h 16)]
         ++ [x01; x00; x00]).
Proof.
  intros Hw Hh Hbw Hbh. unfold astc_header.
  rewrite (struct_pack_I_in_range w) by exact Hw.
  rewrite (struct_pack_I_in_range h) by exact Hh.
  rewrite (struct_pack_3B_in_range bw bh 1) by lia.
  reflexivity.
Qed.

Lemma strip_astc_header_wrapped (rest raw : list byte) :
  length rest = 12%nat -> raw <> [] ->
  strip_astc_header (astc_magic ++ rest ++ raw) = raw.
Proof.
  intros Hrest Hraw. unfold strip_astc_header.
  assert (Hlen : (16 <? len (astc_magic ++ rest ++ raw)) = true).
  { apply Z.ltb_lt. unfold len. rewrite !length_app, Hrest. simpl.
    destruct raw; [congruence | simpl; lia]. }
  rewrite Hlen, andb_true_l.
  rewrite bool_decide_eq_true_2 by reflexivity.
  do 12 (destruct rest as [|? rest]; [discriminate|]).
  destruct rest; [reflexivity | discriminate].
Qed.

(** C5: for a non-empty raw payload, [w], [h] in [1, 65535] and [bw], [bh] in
    [1, 255], the wrapper is the payload behind a 16-byte header (magic
    [0x5CA1AB13] little-endian, the bytes [bw], [bh], [1], then [w], [h] and
    [1] as 3-byte little-endian triples), and the strip of [encode_texture]
    gives the payload back. *)
Theorem wrap_unwrap_roundtrip (raw_path : string) (raw : list byte)
    (w h bw bh : Z) (world : World) :
  fs world !! raw_path = Some raw ->
  raw <> [] ->
  1 <= w <= 65535 -> 1 <= h <= 65535 -> 1 <= bw <= 255 -> 1 <= bh <= 255 ->
  exists header,
    astc_header w h bw bh = Ret header
    /\ length header = 16%nat
    /\ header = [x13; xab; xa1; x5c; byte_of_Z bw; byte_of_Z bh; x01;
                 byte_of_Z (w mod 256); byte_of_Z (w / 256); x00;
                 byte_of_Z (h mod 256); byte_of_Z (h / 256); x00;
                 x01; x00; x00]
    /\ wrap_raw_astc raw_path w h bw bh world = Some (header ++ raw)
    /\ strip_astc_header (header ++ raw) = raw.
Proof.
  intros Hfile Hraw Hw Hh Hbw Hbh.
  assert (Hhdr := astc_header_bytes w h bw bh
                    ltac:(lia) ltac:(lia) ltac:(lia) ltac:(lia)).
  eexists. split; [exact Hhdr|]. split; [reflexivity|].
  split; [|split].
  - simpl. rewrite !Z.shiftr_div_pow2 by lia.
    rewrite !byte_of_Z_mod.
    change (2 ^ 8) with 256. change (2 ^ 16) with 65536.
    rewrite (Z.div_small w 65536), (Z.div_small h 65536) by lia.
    reflexivity.
  - unfold wrap_raw_astc. now rewrite Hhdr, Hfile.
  - apply (strip_astc_header_wrapped
             [byte_of_Z bw; byte_of_Z bh; x01;
              byte_of_Z w; byte_of_Z (Z.shiftr w 8); byte_of_Z (Z.shiftr w 16);
              byte_of_Z h; byte_of_Z (Z.shiftr h 8); byte_of_Z (Z.shiftr h 16);
              x01; x00; x00] raw); [reflexivity | exact Hraw].
Qed.

(** Why the law asks for a non-empty payload: a wrapper of exactly sixteen
    bytes is not longer than sixteen, and the strip leaves it alone. *)
Example strip_astc_header_empty_payload :
  strip_astc_header
    [x13; xab; xa1; x5c; x08; x08; x01; x04; x00; x00; x04; x00; x00;
     x01; x00; x00]
  <> [].
Proof. discriminate. Qed.

End Wrapper.

(** ** The desktop header *)

Section DesktopHeader.

Import DDSHandler.

Lemma le32_at_header (off : nat) (data : list byte) :
  (off + 4 <= 124)%nat ->
  Spec.le32_at off (take 124 (drop 4 data)) = Spec.le32_at (4 + off) data.
Proof.
  intros H. unfold Spec.le32_at.
  rewrite !nth_firstn, !nth_skipn.
  replace (off <? 124)%nat with true by (symmetry; apply Nat.ltb_lt; lia).
  replace (off + 1 <? 124)%nat with true by (symmetry; apply Nat.ltb_lt; lia).
  replace (off + 2 <? 124)%nat with true by (symmetry; apply Nat.ltb_lt; lia).
  replace (off + 3 <? 124)%nat with true by (symmetry; apply Nat.ltb_lt; lia).
  now rewrite !Nat.add_assoc.
Qed.

Lemma parse_dds_short (data : list byte) :
  len data < 128 -> parse_dds data = Ret None.
Proof.
  intros H. unfold parse_dds.
  destruct (bool_decide (take 4 data = b "DDS ")); [|reflexivity].
  simpl negb. cbv iota.
  replace (len (take 124 (drop 4 data)) <? 124) with true; [reflexivity|].
  symmetry. apply Z.ltb_lt. unfold len in *.
  rewrite length_take, length_drop. lia.
Qed.

Lemma parse_dds_bad_signature (data : list byte) :
  take 4 data <> b "DDS " -> parse_dds data = Ret None.
Proof.
  intros H. unfold parse_dds. now rewrite bool_decide_eq_false_2.
Qed.

Lemma parse_dds_valid (data : list byte) :
  128 <= len data -> take 4 data = b "DDS " ->
  exists info,
    parse_dds data = Ret (Some info)
    /\ height info = Spec.le32_at (4 + 8) data
    /\ width info = Spec.le32_at (4 + 12) data
    /\ mipmaps info = Spec.le32_at (4 + 24) data.
Proof.
  intros Hlen Hsig. unfold parse_dds.
  rewrite bool_decide_eq_true_2 by exact Hsig. simpl negb. cbv iota.
  assert (Hh : length (take 124 (drop 4 data)) = 124%nat).
  { unfold len in Hlen. rewrite length_take, length_drop. lia. }
  replace (len (take 124 (drop 4 data)) <? 124) with false
    by (symmetry; apply Z.ltb_ge; unfold len; lia).
  rewrite (slice_4 8), (slice_4 12), (slice_4 24), (slice_4 76) by lia.
  rewrite !le32_at_header by lia.
  cbn [mbind pyresult_bind].
  do 3 (destruct (bool_decide (slice 80 84 _ = _));
        [eexists; split; [reflexivity | repeat split] |]).
  destruct (bool_decide (slice 80 84 _ = _)).
  - destruct (20 <=? len (take 20 (drop 128 data))) eqn:E.
    + apply Z.leb_le in E. unfold len in E.
      rewrite (slice_4 0) by (simpl; lia).
      cbn [mbind pyresult_bind].
      eexists; split; [reflexivity | repeat split].
    + eexists; split; [reflexivity | repeat split].
  - destruct (negb _); eexists; (split; [reflexivity | repeat split]).
Qed.

(** C3: [get_dds_info] gives [None] for a file of fewer than 128 bytes and for
    one that does not start with ["DDS "]; for a file of at least 128 bytes
    that starts with the signature, the height, width and mipmap count it
    returns are the little-endian 32-bit values at offsets 8, 12 and 24 of
    the 124-byte header behind the 4-byte signature. *)
Theorem get_dds_info_spec (file_path : string) (data : list byte) (w : World) :
  fs w !! file_path = Some data ->
  (len data < 128 -> get_dds_info file_path w = None)
  /\ (take 4 data <> b "DDS " -> get_dds_info file_path w = None)
  /\ (128 <= len data -> take 4 data = b "DDS " ->
      exists info,
        get_dds_info file_path w = Some info
        /\ height info = Spec.le32_at (4 + 8) data
        /\ width info = Spec.le32_at (4 + 12) data
        /\ mipmaps info = Spec.le32_at (4 + 24) data).
Proof.
  intros Hfile. unfold get_dds_info. rewrite Hfile. repeat split.
  - intros H. now rewrite parse_dds_short.
  - intros H. now rewrite parse_dds_bad_signature.
  - intros Hlen Hsig.
    destruct (parse_dds_valid data Hlen Hsig) as (info & Hparse & Hinfo).
    exists info. now rewrite Hparse.
Qed.

End DesktopHeader.

(** ** The descriptor size field *)

Section SizeField.

Import TextureReplacer.

Lemma hex_edit_file_size_short (file_path : string) (data : list byte)
    (new_size : Z) (w : World) :
  fs w !! file_path = Some data -> len data < 248 ->
  hex_edit_file_size file_path new_size w = (false, w).
Proof.
  intros Hfile Hlen. unfold hex_edit_file_size. rewrite Hfile.
  replace (248 <=? len data) with false by (symmetry; apply Z.leb_gt; lia).
  reflexivity.
Qed.

Lemma hex_edit_file_size_patch (file_path : string) (data : list byte)
    (new_size : Z) (w : World) :
  fs w !! file_path = Some data -> 248 <= len data ->
  0 <= new_size < 2 ^ 32 ->
  hex_edit_file_size file_path new_size w
  = (true, write_bytes file_path
             (take 244 data ++ Spec.le32_bytes new_size ++ drop 248 data) w).
Proof.
  intros Hfile Hlen Hsize. unfold hex_edit_file_size. rewrite Hfile.
  replace (248 <=? len data) with true by (symmetry; apply Z.leb_le; lia).
  now rewrite struct_pack_I_le32_bytes.
Qed.

(** A size that does not fit 32 bits is refused by [struct.pack]; the handler
    returns [False] and nothing is written. *)
Lemma hex_edit_file_size_unrepresentable (file_path : string) (new_size : Z)
    (w : World) :
  ~ (0 <= new_size < 2 ^ 32) ->
  hex_edit_file_size file_path new_size w = (false, w).
Proof.
  intros H. unfold hex_edit_file_size.
  destruct (fs w !! file_path); [|reflexivity].
  destruct (248 <=? len l); [|reflexivity].
  now rewrite struct_pack_I_out_of_range.
Qed.

Lemma patched_lookup (data field : list byte) (i : nat) :
  (248 <= length data)%nat -> length field = 4%nat ->
  (take 244 data ++ field ++ drop 248 data) !! i
  = if bool_decide (244 <= i < 248)%nat then field !! (i - 244)%nat
    else data !! i.
Proof.
  intros Hlen Hfield. case_bool_decide as Hi.
  - rewrite lookup_app_r by (rewrite length_take; lia).
    rewrite length_take, Nat.min_l by lia.
    apply lookup_app_l. lia.
  - destruct (decide (i < 244)%nat) as [Hlt|Hge].
    + rewrite lookup_app_l by (rewrite length_take; lia).
      apply lookup_take_lt. lia.
    + rewrite lookup_app_r by (rewrite length_take; lia).
      rewrite length_take, Nat.min_l by lia.
      rewrite lookup_app_r by lia.
      rewrite lookup_drop, Hfield. f_equal. lia.
Qed.

(** The patched bytearray [data[244:248] = struct.pack('<I', n)]. *)
Lemma patched_descriptor (data : list byte) (n : Z) :
  248 <= len data -> 0 <= n < 2 ^ 32 ->
  let data' := take 244 data ++ Spec.le32_bytes n ++ drop 248 data in
  length data' = length data
  /\ slice 244 248 data' = Spec.le32_bytes n
  /\ Spec.le32_at 244 data' = n
  /\ (forall i : nat, ~ (244 <= i < 248)%nat -> data' !! i = data !! i).
Proof.
  intros Hlen Hsize data'.
  assert (Hn : (248 <= length data)%nat) by (unfold len in Hlen; lia).
  assert (Hlen' : length data' = length data).
  { unfold data'. rewrite !length_app, length_take, length_drop.
    change (length (Spec.le32_bytes n)) with 4%nat. lia. }
  assert (Hslice : slice 244 248 data' = Spec.le32_bytes n).
  { unfold slice, data'.
    rewrite drop_app_length' by (rewrite length_take; lia).
    now rewrite take_app_length' by reflexivity. }
  split; [exact Hlen'|]. split; [exact Hslice|]. split.
  - pose proof (slice_4 244 data') as H4.
    change (244 + 4)%nat with 248%nat in H4.
    rewrite Hslice, struct_unpack_pack_I in H4 by exact Hsize.
    assert (Ret n = Ret (Spec.le32_at 244 data')) as E
      by (apply H4; lia).
    injection E as E. now symmetry.
  - intros i Hi. unfold data'.
    rewrite patched_lookup by (exact Hn || reflexivity).
    now rewrite bool_decide_eq_false_2.
Qed.

(** C4: on a descriptor of fewer than 248 bytes [hex_edit_file_size] returns
    [False] and changes nothing; on one of at least 248 bytes, with a size
    that has a 4-byte encoding, it returns [True] and rewrites the file so
    that bytes 244..247 are the little-endian encoding of the size (which
    reads back as the size), every other byte is as before and the length is
    unchanged; no other file is touched. *)
Theorem hex_edit_file_size_spec (file_path : string) (data : list byte)
    (new_size : Z) (w : World) :
  fs w !! file_path = Some data ->
  (len data < 248 -> hex_edit_file_size file_path new_size w = (false, w))
  /\ (248 <= len data -> 0 <= new_size < 2 ^ 32 ->
      exists data',
        hex_edit_file_size file_path new_size w
        = (true, write_bytes file_path data' w)
        /\ length data' = length data
        /\ slice 244 248 data' = Spec.le32_bytes new_size
        /\ Spec.le32_at 244 data' = new_size
        /\ (forall i : nat, ~ (244 <= i < 248)%nat -> data' !! i = data !! i)).
Proof.
  intros Hfile. split.
  - intros Hlen. now apply (hex_edit_file_size_short _ data).
  - intros Hlen Hsize.
    exists (take 244 data ++ Spec.le32_bytes new_size ++ drop 248 data).
    split; [now apply hex_edit_file_size_patch|].
    now apply patched_descriptor.
Qed.

End SizeField.

(** ** Validation of one candidate *)

Section Validation.

Import ASTCTools.

Variable astcenc_decode : list byte -> ToolRun.
Variable path_stem : string -> string.
Variable path_join : string -> string -> string.

Lemma wrap_raw_astc_Some (raw_file : string) (width height bw bh : Z)
    (w : World) (wrapped : list byte) :
  wrap_raw_astc raw_file width height bw bh w = Some wrapped ->
  exists header raw,
    astc_header width height bw bh = Ret header
    /\ fs w !! raw_file = Some raw
    /\ wrapped = header ++ raw.
Proof.
  unfold wrap_raw_astc. intros H.
  destruct (astc_header width height bw bh) as [header|]; [|discriminate].
  destruct (fs w !! raw_file) as [raw|]; [|discriminate].
  injection H as <-. now exists header, raw.
Qed.

Lemma file_exists_true (path : string) (w : World) :
  file_exists path w = true <-> exists data, fs w !! path = Some data.
Proof.
  unfold file_exists. rewrite bool_decide_eq_true. reflexivity.
Qed.

Lemma file_exists_false (path : string) (w : World) :
  file_exists path w = false <-> fs w !! path = None.
Proof.
  unfold file_exists. rewrite bool_decide_eq_false.
  rewrite <- eq_None_not_Some. reflexivity.
Qed.

Lemma unlink_lookup (path : string) (w : World) :
  fs (unlink path w) !! path = None.
Proof. apply lookup_delete_eq. Qed.

(** The raw file is still there after the decoder ran. *)
Lemma run_astcenc_decode_keeps (wrapped : list byte)
    (output_file raw_file : string) (w : World) :
  is_Some (fs w !! raw_file) ->
  is_Some (fs (snd (run_astcenc_decode astcenc_decode wrapped output_file w))
           !! raw_file).
Proof.
  intros H. unfold run_astcenc_decode. simpl.
  destruct (produced (astcenc_decode wrapped)); simpl; [|exact H].
  destruct (decide (output_file = raw_file)) as [->|Hne].
  - rewrite lookup_insert_eq. eauto.
  - now rewrite lookup_insert_ne.
Qed.

(** [decode_with_config] as a case analysis on what the decoder did. *)
Lemma decode_with_config_cases (raw_file output_file : string)
    (width height bw bh : Z) (cache_key : option string) (w : World) :
  let r := decode_with_config astcenc_decode raw_file output_file
             width height bw bh cache_key w in
  match wrap_raw_astc raw_file width height bw bh w with
  | None => r = (false, w)
  | Some wrapped =>
      let w1 := snd (run_astcenc_decode astcenc_decode wrapped output_file w) in
      let accepted :=
        (run_hidden_command (outcome (astcenc_decode wrapped)) =? 0)
        && match fs w1 !! output_file with
           | Some out => 1000 <? len out
           | None => false
           end in
      fst r = accepted
      /\ (accepted = false -> snd r = unlink output_file w1)
      /\ (accepted = true ->
          exists raw, fs w1 !! raw_file = Some raw
            /\ snd r = if truthy_str cache_key
                       then set_cache
                              (<[default "" cache_key :=
                                   mkDecodeParams width height bw bh (len raw)]>
                                 (DECODE_CACHE w1)) w1
                       else w1)
  end.
Proof.
  intros r. subst r. unfold decode_with_config.
  destruct (wrap_raw_astc raw_file width height bw bh w) as [wrapped|] eqn:Hw;
    [|reflexivity].
  destruct (wrap_raw_astc_Some _ _ _ _ _ _ _ Hw) as (hdr & raw0 & _ & Hraw & _).
  pose proof (run_astcenc_decode_keeps wrapped output_file raw_file w
                ltac:(eauto)) as [raw Hkeep].
  destruct (run_astcenc_decode astcenc_decode wrapped output_file w)
    as [rc w1] eqn:Hrun.
  assert (Hrc : rc = run_hidden_command (outcome (astcenc_decode wrapped)))
    by (unfold run_astcenc_decode in Hrun; now injection Hrun).
  simpl snd in *. rewrite <- Hrc.
  destruct (rc =? 0); simpl andb.
  - destruct (fs w1 !! output_file) as [out|] eqn:Hout.
    + rewrite (proj2 (file_exists_true output_file w1)) by eauto.
      simpl default.
      destruct (1000 <? len out).
      * rewrite Hkeep.
        destruct (truthy_str cache_key); simpl;
          (split; [reflexivity|split; [discriminate|]]);
          intros _; exists raw; split; reflexivity.
      * simpl. split; [reflexivity|split; [reflexivity|discriminate]].
    + rewrite (proj2 (file_exists_false output_file w1)) by exact Hout.
      simpl. split; [reflexivity|split; [|discriminate]].
      intros _. unfold unlink, set_fs.
      rewrite delete_id by exact Hout. now destruct w1.
  - split; [reflexivity|split; [|discriminate]].
    intros _. simpl.
    destruct (file_exists output_file w1) eqn:E; [reflexivity|].
    apply file_exists_false in E. unfold unlink, set_fs.
    rewrite delete_id by exact E. now destruct w1.
Qed.

(** A rejected candidate leaves no output file behind when there was none
    before it was tried. *)
Lemma decode_with_config_rejected_absent (raw_file output_file : string)
    (width height bw bh : Z) (cache_key : option string) (w : World) :
  fs w !! output_file = None ->
  fst (decode_with_config astcenc_decode raw_file output_file
         width height bw bh cache_key w) = false ->
  fs (snd (decode_with_config astcenc_decode raw_file output_file
             width height bw bh cache_key w)) !! output_file = None.
Proof.
  intros Hpre Hrej.
  pose proof (decode_with_config_cases raw_file output_file width height
                bw bh cache_key w) as Hc.
  cbv zeta in Hc.
  destruct (wrap_raw_astc raw_file width height bw bh w) as [wrapped|].
  - destruct Hc as (Hfst & Hsnd & _). rewrite Hsnd by congruence.
    apply unlink_lookup.
  - now rewrite Hc.
Qed.

(** The mapping path started in a fresh output directory: when every block
    size is rejected, the loop has gone through all of them and the output
    file is absent at the end. *)
Lemma decode_with_mapping_loop_all_rejected (block_sizes : list (Z * Z))
    (texture_file output_path texture_name : string) (width height : Z)
    (w w' : World) :
  fs w !! path_join output_path (path_stem texture_file +:+ ".png") = None ->
  decode_with_mapping_loop astcenc_decode path_stem path_join block_sizes
    texture_file output_path width height texture_name w = (false, w') ->
  fs w' !! path_join output_path (path_stem texture_file +:+ ".png") = None.
Proof.
  revert w. induction block_sizes as [|[bw bh] rest IH]; intros w Hpre Hrun.
  - now injection Hrun as <-.
  - simpl in Hrun.
    pose proof (decode_with_config_rejected_absent texture_file
                  (path_join output_path (path_stem texture_file +:+ ".png"))
                  width height bw bh (Some texture_name) w Hpre) as Hstep.
    destruct (decode_with_config astcenc_decode texture_file _ width height
                bw bh (Some texture_name) w) as [[] w1]; [discriminate|].
    apply (IH w1); [now apply Hstep | exact Hrun].
Qed.

(** C8: a candidate is accepted exactly when the decoder exits with code 0,
    the output file exists and it is larger than 1000 bytes; a timeout or a
    non-zero exit code rejects it; after a rejection the output file is
    absent (the decoder ran, or the file was not there before, as in the
    fresh output directory of a resolution); and both resolution loops go on
    with the next candidate. *)
Theorem candidate_validation (raw_file output_file : string)
    (width height bw bh : Z) (cache_key : option string) (w : World) :
  let r := decode_with_config astcenc_decode raw_file output_file
             width height bw bh cache_key w in
  (fst r = true <->
     exists wrapped out,
       wrap_raw_astc raw_file width height bw bh w = Some wrapped
       /\ run_hidden_command (outcome (astcenc_decode wrapped)) = 0
       /\ fs (snd (run_astcenc_decode astcenc_decode wrapped output_file w))
            !! output_file = Some out
       /\ 1000 < len out)
  /\ (forall wrapped,
        wrap_raw_astc raw_file width height bw bh w = Some wrapped ->
        outcome (astcenc_decode wrapped) = TimeoutExpired
        \/ (exists rc, outcome (astcenc_decode wrapped) = Exited rc /\ rc <> 0) ->
        fst r = false)
  /\ (fst r = false ->
      is_Some (wrap_raw_astc raw_file width height bw bh w)
      \/ fs w !! output_file = None ->
      fs (snd r) !! output_file = None)
  /\ (fst r = false ->
      forall rest texture_file output_path texture_name,
        raw_file = texture_file ->
        output_file
        = path_join output_path (path_stem texture_file +:+ ".png") ->
        cache_key = Some texture_name ->
        decode_with_mapping_loop astcenc_decode path_stem path_join
          ((bw, bh) :: rest) texture_file output_path width height
          texture_name w
        = decode_with_mapping_loop astcenc_decode path_stem path_join
            rest texture_file output_path width height texture_name (snd r))
  /\ (fst r = false ->
      forall rest texture_file output_path desc file_size expected_size,
        calculate_astc_size width height bw bh = Ret expected_size ->
        Z.abs (expected_size - file_size) <= 100 ->
        raw_file = texture_file ->
        output_file
        = path_join output_path
            (path_stem texture_file +:+ "_BF_" +:+ desc +:+ ".png") ->
        cache_key = Some (path_stem texture_file) ->
        brute_force_loop astcenc_decode path_stem path_join
          ((width, height, bw, bh, desc) :: rest) texture_file output_path
          file_size w
        = brute_force_loop astcenc_decode path_stem path_join
            rest texture_file output_path file_size (snd r)).
Proof.
  intros r.
  pose proof (decode_with_config_cases raw_file output_file width height
                bw bh cache_key w) as Hc.
  cbv zeta in Hc. fold r in Hc.
  split; [|split; [|split; [|split]]].
  - destruct (wrap_raw_astc raw_file width height bw bh w) as [wrapped|].
    + destruct Hc as (Hfst & _ & _). rewrite Hfst. split.
      * intros Hacc. apply andb_true_iff in Hacc as [Hrc Hout].
        apply Z.eqb_eq in Hrc.
        destruct (fs _ !! output_file) as [out|] eqn:E; [|discriminate].
        apply Z.ltb_lt in Hout. exists wrapped, out. auto.
      * intros (wrapped' & out & Hw & Hrc & Hout & Hlen).
        injection Hw as <-. rewrite Hrc, Hout. simpl.
        now apply Z.ltb_lt.
    + rewrite Hc. simpl. split; [discriminate|].
      intros (? & ? & ? & _). discriminate.
  - intros wrapped Hw Hbad. rewrite Hw in Hc.
    destruct Hc as (Hfst & _ & _). rewrite Hfst.
    apply andb_false_iff. left. apply Z.eqb_neq.
    destruct Hbad as [-> | (rc & -> & Hrc)]; simpl; lia.
  - intros Hrej Hpre.
    destruct (wrap_raw_astc raw_file width height bw bh w) as [wrapped|].
    + destruct Hc as (Hfst & Hsnd & _). rewrite Hsnd by congruence.
      apply unlink_lookup.
    + rewrite Hc. simpl. destruct Hpre as [[? ?]|?]; [discriminate|assumption].
  - intros Hrej rest texture_file output_path texture_name -> Hout ->.
    simpl. rewrite <- Hout. fold r. destruct r as [ok w']. simpl in Hrej.
    now rewrite Hrej.
  - intros Hrej rest texture_file output_path desc file_size expected_size
           Hsize Htol -> Hout ->.
    simpl. unfold Env.bind at 1, lift at 1. rewrite Hsize.
    replace (100 <? Z.abs (expected_size - file_size)) with false
      by (symmetry; apply Z.ltb_ge; lia).
    unfold Env.bind at 1. rewrite <- Hout. fold r.
    destruct r as [ok w']. simpl in Hrej. now rewrite Hrej.
Qed.

End Validation.

(** ** Resolution in a fresh output directory *)

Section Resolution.

Import ASTCTools.

Variable astcenc_decode : list byte -> ToolRun.
Variable path_stem : string -> string.
Variable path_join : string -> string -> string.

(** One candidate, when its output file is not there yet and is not the
    texture itself: a rejection only adds the call to the log; an acceptance
    also leaves the decoded image and, for a non-empty key, the cache
    record. *)
Lemma decode_with_config_fresh (raw_file output_file : string)
    (raw header : list byte) (width height bw bh : Z)
    (cache_key : option string) (w : World) :
  fs w !! raw_file = Some raw ->
  astc_header width height bw bh = Ret header ->
  fs w !! output_file = None ->
  output_file <> raw_file ->
  let call := AstcencDecode (header ++ raw) output_file in
  let r := decode_with_config astcenc_decode raw_file output_file
             width height bw bh cache_key w in
  if Spec.validates astcenc_decode (header ++ raw) then
    exists out,
      produced (astcenc_decode (header ++ raw)) = Some out
      /\ r = (true,
              let w1 := write_bytes output_file out (log_call call w) in
              if truthy_str cache_key
              then set_cache
                     (<[default "" cache_key :=
                          mkDecodeParams width height bw bh (len raw)]>
                        (DECODE_CACHE w)) w1
              else w1)
  else r = (false, log_call call w).
Proof.
  intros Hraw Hhdr Hout Hne call r.
  pose proof (decode_with_config_cases astcenc_decode raw_file output_file
                width height bw bh cache_key w) as Hc.
  cbv zeta in Hc. fold r in Hc.
  unfold wrap_raw_astc in Hc. rewrite Hhdr, Hraw in Hc.
  unfold run_astcenc_decode in Hc. simpl snd in Hc.
  unfold Spec.validates.
  destruct (produced (astcenc_decode (header ++ raw))) as [out|] eqn:Hprod.
  - assert (Hlook : fs (write_bytes output_file out
                           (log_call (AstcencDecode (header ++ raw)
                                                    output_file) w))
                    !! output_file = Some out)
      by apply lookup_insert_eq.
    rewrite Hlook in Hc.
    destruct Hc as (Hfst & Hrej & Hacc).
    destruct ((run_hidden_command (outcome (astcenc_decode (header ++ raw)))
               =? 0) && (1000 <? len out)) eqn:E.
    + exists out. split; [reflexivity|].
      destruct (Hacc eq_refl) as (raw' & Hraw' & Hsnd).
      unfold write_bytes, set_fs in Hraw'. simpl in Hraw'.
      rewrite lookup_insert_ne, Hraw in Hraw' by exact Hne.
      injection Hraw' as <-.
      destruct r as [ok w']. simpl in Hfst, Hsnd. now subst.
    + destruct r as [ok w']. simpl in Hfst, Hrej.
      specialize (Hrej eq_refl). subst ok w'. f_equal.
      unfold unlink, write_bytes, set_fs, log_call. simpl.
      rewrite delete_insert_eq, delete_id by exact Hout. reflexivity.
  - assert (Hlook : fs (log_call (AstcencDecode (header ++ raw)
                                                output_file) w)
                    !! output_file = None) by exact Hout.
    rewrite Hlook in Hc.
    rewrite andb_false_r in *.
    destruct Hc as (Hfst & Hrej & _).
    destruct r as [ok w']. simpl in Hfst, Hrej.
    specialize (Hrej eq_refl). subst ok w'. f_equal.
    unfold unlink, set_fs, log_call. simpl.
    rewrite delete_id by exact Hout. reflexivity.
Qed.

Lemma configurations_packable : Forall Spec.packable configurations.
Proof. repeat constructor; lia. Qed.

Section BruteForce.

Variables texture_file output_path : string.
Variable raw : list byte.

Local Notation "'bf_output'" :=
  (Spec.bf_output path_stem path_join texture_file output_path).
Local Notation "'bf_wrapped'" := (Spec.config_wrapped raw).
Local Notation "'bf_ok'" :=
  (fun c => Spec.validates astcenc_decode (Spec.config_wrapped raw c)).
Local Notation "'bf_call'" :=
  (fun c => AstcencDecode (Spec.config_wrapped raw c)
              (Spec.bf_output path_stem path_join texture_file output_path c)).
Local Notation "'cache_after'" := (fun c cache =>
  if truthy_str (Some (path_stem texture_file))
  then <[path_stem texture_file := Spec.config_record raw c]> cache
  else cache).

Lemma brute_force_loop_spec (configs : list Spec.Config) (w : World) :
  Forall Spec.packable configs ->
  fs w !! texture_file = Some raw ->
  (forall c, In c configs -> bf_output c <> texture_file) ->
  (forall c, In c configs -> fs w !! bf_output c = None) ->
  let candidates := List.filter (Spec.in_tolerance (len raw)) configs in
  exists w',
    brute_force_loop astcenc_decode path_stem path_join configs
      texture_file output_path (len raw) w
    = (Ret (existsb bf_ok candidates), w')
    /\ tool_log w'
       = tool_log w ++ map bf_call (Spec.tried_until bf_ok candidates)
    /\ match List.find bf_ok candidates with
       | Some c =>
           exists out,
             produced (astcenc_decode (bf_wrapped c)) = Some out
             /\ fs w' = <[bf_output c := out]> (fs w)
             /\ DECODE_CACHE w' = cache_after c (DECODE_CACHE w)
       | None => fs w' = fs w /\ DECODE_CACHE w' = DECODE_CACHE w
       end.
Proof.
  intros Hpack. revert w.
  induction Hpack as [|c configs Hc Hpack IH]; intros w Hraw Hne Hfresh.
  - exists w. simpl. rewrite app_nil_r. auto.
  - destruct c as [[[[cw ch] bw] bh] desc].
    destruct Hc as (Hw & Hh & Hbw & Hbh).
    simpl brute_force_loop. unfold Env.bind at 1, lift at 1.
    rewrite calculate_astc_size_value by lia.
    rewrite !round_up_div_ceil by lia.
    fold (Spec.expectedSize cw ch bw bh).
    simpl List.filter. unfold Spec.in_tolerance at 1.
    rewrite Z.leb_antisym.
    destruct (100 <? Z.abs (Spec.expectedSize cw ch bw bh - len raw)) eqn:Etol;
      simpl negb; cbv iota.
    + apply IH; auto.
      * intros c Hin. apply Hne. now right.
      * intros c Hin. apply Hfresh. now right.
    + pose proof (astc_header_bytes cw ch bw bh
                    ltac:(lia) ltac:(lia) ltac:(lia) ltac:(lia)) as Hbytes.
      destruct (astc_header cw ch bw bh) as [header|] eqn:Hhdr;
        [clear Hbytes | discriminate].
      set (c := (cw, ch, bw, bh, desc)) in *.
      pose proof (decode_with_config_fresh texture_file (bf_output c) raw
                    header cw ch bw bh (Some (path_stem texture_file)) w
                    Hraw Hhdr (Hfresh c (or_introl eq_refl))
                    (Hne c (or_introl eq_refl))) as Hstep.
      cbv zeta in Hstep.
      assert (Hwrap : bf_wrapped c = header ++ raw).
      { unfold Spec.config_wrapped, c, Spec.wrapped_blob. now rewrite Hhdr. }
      rewrite <- Hwrap in Hstep.
      unfold Env.bind at 1.
      change (path_join output_path
                (path_stem texture_file +:+ "_BF_" +:+ desc +:+ ".png"))
        with (bf_output c).
      simpl existsb. simpl Spec.tried_until. simpl List.find.
      change (Spec.wrapped_blob raw cw ch bw bh) with (bf_wrapped c).
      destruct (Spec.validates astcenc_decode (bf_wrapped c)) eqn:Eok.
      * destruct Hstep as (out & Hprod & ->).
        eexists. split; [reflexivity|].
        unfold c.
        destruct (truthy_str (Some (path_stem texture_file)));
          (split; [reflexivity|]); exists out;
          (split; [exact Hprod|]); split; reflexivity.
      * rewrite Hstep.
        destruct (IH (log_call (AstcencDecode (bf_wrapped c) (bf_output c)) w))
          as (w' & Hrun & Hlog & Hfin).
        -- exact Hraw.
        -- intros c' Hin. apply Hne. now right.
        -- intros c' Hin. apply Hfresh. now right.
        -- exists w'. split; [exact Hrun|]. split.
           ++ rewrite Hlog. simpl. now rewrite <- app_assoc.
           ++ exact Hfin.
Qed.

(** C9: in a fresh output directory, the brute-force path goes through its
    table in order, runs the decoder only on the rows whose expected size
    (by the ceiling formula) is within 100 bytes of the size of the blob,
    stops at the first of them that validates and returns [True] with that
    row's image and cache record; it returns [False] when none validates. *)
Theorem brute_force_decode_first_success (w : World) :
  fs w !! texture_file = Some raw ->
  (forall c, In c configurations -> bf_output c <> texture_file) ->
  (forall c, In c configurations -> fs w !! bf_output c = None) ->
  let candidates :=
    List.filter (Spec.in_tolerance (len raw)) configurations in
  exists w',
    brute_force_decode astcenc_decode path_stem path_join
      texture_file output_path w
    = (Ret (existsb bf_ok candidates), w')
    /\ tool_log w'
       = tool_log w ++ map bf_call (Spec.tried_until bf_ok candidates)
    /\ match List.find bf_ok candidates with
       | Some c =>
           exists out,
             produced (astcenc_decode (bf_wrapped c)) = Some out
             /\ fs w' = <[bf_output c := out]> (fs w)
             /\ DECODE_CACHE w' = cache_after c (DECODE_CACHE w)
       | None => fs w' = fs w /\ DECODE_CACHE w' = DECODE_CACHE w
       end.
Proof.
  intros Hraw Hne Hfresh.
  unfold brute_force_decode, Env.bind at 1, getsize. rewrite Hraw.
  apply brute_force_loop_spec; auto using configurations_packable.
Qed.

End BruteForce.

(** *** Suffix stripping *)

Lemma length_append (a c : string) :
  String.length (a +:+ c) = (String.length a + String.length c)%nat.
Proof. induction a as [|x a IH]; simpl; [reflexivity | now rewrite IH]. Qed.

Lemma substring_all (s : string) : substring 0 (String.length s) s = s.
Proof. induction s as [|x s IH]; simpl; [reflexivity | now rewrite IH]. Qed.

Lemma substring_suffix (a c : string) :
  substring (String.length a) (String.length c) (a +:+ c) = c.
Proof. induction a as [|x a IH]; simpl; [apply substring_all | exact IH]. Qed.

Lemma substring_prefix (a c : string) :
  substring 0 (String.length a) (a +:+ c) = a.
Proof.
  induction a as [|x a IH]; simpl; [now destruct c | now rewrite IH].
Qed.

Lemma endswith_append (base suffix : string) :
  endswith (base +:+ suffix) suffix = true.
Proof.
  unfold endswith. rewrite length_append.
  replace (String.length base + String.length suffix - String.length suffix)%nat
    with (String.length base) by lia.
  rewrite substring_suffix, String.eqb_refl, andb_true_r.
  apply Nat.leb_le. lia.
Qed.

Lemma endswith_other (base suffix suffix' : string) :
  String.length suffix' = String.length suffix -> suffix' <> suffix ->
  endswith (base +:+ suffix) suffix' = false.
Proof.
  intros Hlen Hne. unfold endswith. rewrite length_append, Hlen.
  replace (String.length base + String.length suffix - String.length suffix)%nat
    with (String.length base) by lia.
  rewrite substring_suffix.
  apply andb_false_iff. right. apply String.eqb_neq. congruence.
Qed.

Lemma drop_last_append (base suffix : string) (n : nat) :
  n = String.length suffix -> drop_last n (base +:+ suffix) = base.
Proof.
  intros ->. unfold drop_last. rewrite length_append.
  replace (String.length base + String.length suffix - String.length suffix)%nat
    with (String.length base) by lia.
  apply substring_prefix.
Qed.


(** A name that has no entry of its own and ends in one of the channel
    suffixes resolves to the entry of its base name. *)
Lemma find_texture_info_suffix (base suffix : string)
    (mapping : gmap string TextureInfo) (info : TextureInfo) :
  In suffix suffixes ->
  mapping !! (base +:+ suffix) = None ->
  mapping !! base = Some info ->
  find_texture_info (base +:+ suffix) mapping = Some info.
Proof.
  intros Hin Hfull Hbase. unfold find_texture_info. rewrite Hfull.
  unfold suffixes in *. simpl in Hin.
  repeat (destruct Hin as [<- | Hin];
    [ unfold find_by_suffix;
      rewrite ?endswith_other by (reflexivity || discriminate);
      rewrite endswith_append, drop_last_append by reflexivity;
      now rewrite Hbase | ]).
  contradiction.
Qed.

(** *** The mapping path *)





End Resolution.

(** ** The replacement engine *)

Section Engine.

Import DDSHandler ASTCTools TextureReplacer.

Variable astcenc_encode : option (list byte) -> Z -> Z -> string -> ToolRun.
Variable os_path_join : string -> string -> string.
Variable os_path_basename : string -> string.
Variable os_path_splitext : string -> string.
Variable gettempdir : string.
Variable get_settings_path : string -> string.
Variable get_cache_dir : string.
Variable astcenc_path : string.
Variable mapping : gmap string TextureInfo.
Variable texconv : option (list byte) -> Z -> Z -> option (list byte).
Variable pcvr_replace_path : string -> string.

Local Notation "'replace_quest'" :=
  (replace_quest_texture astcenc_encode os_path_join os_path_basename
     os_path_splitext gettempdir get_settings_path get_cache_dir astcenc_path
     mapping).

Local Notation "'replace_pcvr'" :=
  (replace_pcvr_texture os_path_join os_path_basename texconv
     pcvr_replace_path).

(** Neither name read at lines 1586 and 1592 is bound anywhere. *)
Lemma load_global_dest_textures_folder (w : World) :
  load_global get_settings_path get_cache_dir "dest_textures_folder" w
  = (Raise (NameError "dest_textures_folder"), w).
Proof. reflexivity. Qed.

Lemma load_global_dest_corresponding_folder (w : World) :
  load_global get_settings_path get_cache_dir "dest_corresponding_folder" w
  = (Raise (NameError "dest_corresponding_folder"), w).
Proof. reflexivity. Qed.

(** Whatever it is given, [replace_quest_texture] does not return success:
    once the encode step has succeeded, reading [dest_textures_folder]
    raises and the handler turns that into a failure. *)
Lemma replace_quest_texture_never_succeeds
    (output_folder quest_input_folder original_texture_path
     replacement_texture_path : string) (w : World) :
  fst (fst (replace_quest output_folder quest_input_folder
              original_texture_path replacement_texture_path w)) = false.
Proof.
  unfold replace_quest_texture, replace_quest_texture_try.
  unfold Env.bind at 1, getsize.
  destruct (fs w !! original_texture_path) as [orig|]; [|reflexivity].
  destruct (String.eqb astcenc_path ""); [reflexivity|].
  unfold Env.bind at 1.
  match goal with
  | |- context [let '(ok, w1) := ?e in (Ret ok, w1)] =>
      destruct e as [[] w1]
  end; reflexivity.
Qed.

(** With a cache hit and a successful encode step, the call ends in the
    handler with the world the encode step left: the payload is in the
    temporary output file and nothing was staged or patched. *)
Lemma replace_quest_texture_cache_hit
    (output_folder quest_input_folder original_texture_path
     replacement_texture_path : string) (orig : list byte)
    (config : DecodeParams) (w w1 : World) :
  let texture_name := os_path_basename original_texture_path in
  let temp_output := os_path_join gettempdir ("encoded_" +:+ texture_name) in
  fs w !! original_texture_path = Some orig ->
  astcenc_path <> "" ->
  DECODE_CACHE w !! os_path_splitext texture_name = Some config ->
  encode_with_cache astcenc_encode tempdir_writable replacement_texture_path
    temp_output (os_path_splitext texture_name) "medium" w = (true, w1) ->
  replace_quest output_folder quest_input_folder original_texture_path
    replacement_texture_path w
  = ((false, QuestReplacementError (NameError "dest_textures_folder")), w1).
Proof.
  intros texture_name temp_output Horig Hpath Hhit Henc.
  unfold replace_quest_texture, replace_quest_texture_try.
  unfold Env.bind at 1, getsize. rewrite Horig.
  replace (String.eqb astcenc_path "") with false
    by (symmetry; now apply String.eqb_neq).
  unfold Env.bind at 1. fold texture_name. fold temp_output.
  rewrite bool_decide_eq_true_2 by (rewrite Hhit; eauto).
  rewrite Henc. reflexivity.
Qed.



End Engine.

(** ** Worked examples *)

Section Examples.

Import DDSHandler ASTCTools TextureReplacer.

Lemma get_dds_info_spec_witness :
  exists info,
    get_dds_info "out/beac1969cb7b8861/tex1" Demo.pcvr_world = Some info
    /\ height info = 256 /\ width info = 512 /\ mipmaps info = 5.
Proof.
  destruct (get_dds_info_spec "out/beac1969cb7b8861/tex1" Demo.dds_header
              Demo.pcvr_world eq_refl) as (_ & _ & Hvalid).
  destruct (Hvalid ltac:(vm_compute; congruence) eq_refl)
    as (info & Hinfo & Hh & Hw & Hm).
  exists info. split; [exact Hinfo|].
  rewrite Hh, Hw, Hm. vm_compute. repeat split.
Defined.

Lemma hex_edit_file_size_spec_witness :
  exists data',
    hex_edit_file_size "out/4a4c32c49300b8a0/tex1" 3 Demo.pcvr_world
    = (true, write_bytes "out/4a4c32c49300b8a0/tex1" data' Demo.pcvr_world)
    /\ length data' = 248%nat
    /\ Spec.le32_at 244 data' = 3.
Proof.
  destruct (hex_edit_file_size_spec "out/4a4c32c49300b8a0/tex1"
              Demo.descriptor 3 Demo.pcvr_world eq_refl) as (_ & Hpatch).
  destruct (Hpatch ltac:(vm_compute; congruence) ltac:(lia))
    as (data' & Hrun & Hlen & _ & Hval & _).
  exists data'. repeat split; assumption.
Defined.

Lemma wrap_unwrap_roundtrip_witness :
  exists header,
    astc_header 8 8 8 8 = Ret header
    /\ length header = 16%nat
    /\ wrap_raw_astc "tex/foo_d" 8 8 8 8 Demo.quest_world
       = Some (header ++ Demo.raw16)
    /\ strip_astc_header (header ++ Demo.raw16) = Demo.raw16.
Proof.
  destruct (wrap_unwrap_roundtrip "tex/foo_d" Demo.raw16 8 8 8 8
              Demo.quest_world eq_refl ltac:(discriminate)
              ltac:(lia) ltac:(lia) ltac:(lia) ltac:(lia))
    as (header & H1 & H2 & _ & H3 & H4).
  exists header. repeat split; assumption.
Defined.

(** A decoder that accepts block size 8x8 validates the 8x8 candidate; one
    that times out validates nothing. *)
Lemma candidate_validation_witness :
  fst (decode_with_config Demo.decode_8x8 "tex/foo_d" "out/foo_d.png"
         8 8 8 8 (Some "foo_d") Demo.quest_world) = true
  /\ fst (decode_with_config Demo.decode_timeout "tex/foo_d" "out/foo_d.png"
            8 8 8 8 (Some "foo_d") Demo.quest_world) = false.
Proof.
  split.
  - apply (candidate_validation Demo.decode_8x8 Demo.posix_stem
             Demo.posix_join "tex/foo_d" "out/foo_d.png" 8 8 8 8
             (Some "foo_d") Demo.quest_world).
    eexists _, Demo.png1001.
    split; [reflexivity|]. split; [reflexivity|].
    split; [reflexivity|]. vm_compute. reflexivity.
  - eapply (candidate_validation Demo.decode_timeout Demo.posix_stem
              Demo.posix_join "tex/foo_d" "out/foo_d.png" 8 8 8 8
              (Some "foo_d") Demo.quest_world).
    + reflexivity.
    + left. reflexivity.
Defined.

(** A blob of 131072 bytes is within tolerance of the 1024x512 row in 8x8
    blocks only; the decoder is run once and that row wins. *)
Lemma brute_force_decode_first_success_witness :
  exists w',
    brute_force_decode Demo.decode_8x8 Demo.posix_stem Demo.posix_join
      "tex/bar" "out" Demo.brute_world = (Ret true, w')
    /\ length (tool_log w') = 1%nat
    /\ DECODE_CACHE w' !! "bar"
       = Some (mkDecodeParams 1024 512 8 8 131072).
Proof.
  destruct (brute_force_decode_first_success Demo.decode_8x8 Demo.posix_stem
              Demo.posix_join "tex/bar" "out" Demo.raw_1Kx512
              Demo.brute_world) as (w' & Hrun & Hlog & Hfin).
  - apply lookup_singleton_eq.
  - intros c Hin. unfold configurations in Hin. simpl in Hin.
    repeat (destruct Hin as [<- | Hin]; [vm_compute; congruence|]).
    contradiction.
  - intros c Hin. unfold configurations in Hin. simpl in Hin.
    repeat (destruct Hin as [<- | Hin]; [vm_compute; reflexivity|]).
    contradiction.
  - exists w'. split; [|split].
    + rewrite Hrun.
      replace (existsb _ _) with true by (vm_compute; reflexivity).
      reflexivity.
    + rewrite Hlog. vm_compute. reflexivity.
    + revert Hfin. 
      replace (find _ _) with (Some (1024, 512, 8, 8, "1Kx512_8x8"))
        by (vm_compute; reflexivity).
      intros (out & _ & _ & ->). vm_compute. reflexivity.
Defined.


(** C1 fails on the code: with a cache hit for [foo_d] and an encoder that
    succeeds, the encode step returns [True] and leaves the 16-byte payload
    in the temporary output file, and [replace_quest_texture] then returns
    the failure of the handler, with no payload in the staging folder and no
    staged descriptor. *)
Theorem replace_quest_texture_failing_input :
  let r := replace_quest_texture Demo.encode_one_block Demo.posix_join
             Demo.posix_basename Demo.posix_splitext "tmp" Demo.settings_path
             "cache" "astcenc-avx2.exe" Demo.foo_mapping
             "out" "in" "tex/foo_d" "new.png" Demo.quest_world_cached in
  fst (encode_with_cache Demo.encode_one_block tempdir_writable "new.png"
         "tmp/encoded_foo_d" "foo_d" "medium" Demo.quest_world_cached) = true
  /\ fst r = (false, QuestReplacementError (NameError "dest_textures_folder"))
  /\ fs (snd r) !! "tmp/encoded_foo_d" = Some (repeat x11 16)
  /\ fs (snd r) !! "in/489b7b69cb19e0e9/foo_d" = None
  /\ fs (snd r) !! "out/e2ef0854d0cd69b8/foo_d" = Some Demo.descriptor
  /\ fs (snd r) !! "in/e2ef0854d0cd69b8/foo_d" = None.
Proof.
  vm_compute. repeat split.
Qed.



End Examples.

(** * Further properties *)

(** ** The encoder side of ASTCTools *)

Section Encoder.

Import ASTCTools.

Variable astcenc_encode : option (list byte) -> Z -> Z -> string -> ToolRun.
Variable can_write : string -> bool.

Lemma take_repeat_le {A} (x : A) (k n : nat) :
  (k <= n)%nat -> take k (repeat x n) = repeat x k.
Proof.
  revert n. induction k as [|k IH]; intros n Hk; [reflexivity|].
  destruct n as [|n]; [lia|]. simpl. f_equal. apply IH. lia.
Qed.

(** Padding or cutting to [n] bytes in one formula: the first [n] bytes of
    the data followed by [n] zero bytes. *)
Lemma pad_to_size_take (data : list byte) (n : Z) :
  0 <= n ->
  pad_to_size data n
  = take (Z.to_nat n) (data ++ repeat x00 (Z.to_nat n)).
Proof.
  intros H0. destruct (Z.lt_trichotomy (len data) n) as [H|[H|H]].
  - rewrite pad_to_size_short by exact H. unfold len in H.
    rewrite firstn_app, take_ge by lia. f_equal.
    rewrite take_repeat_le by lia. f_equal. unfold len. lia.
  - rewrite pad_to_size_exact by exact H. unfold len in H.
    rewrite take_app_le by lia. symmetry. apply take_ge. lia.
  - rewrite pad_to_size_long by lia. unfold len in H.
    now rewrite take_app_le by lia.
Qed.

(** What [encode_texture] does when the encoder has exited with code 0, the
    target size is set and the block dimensions are not zero. *)
Lemma encode_texture_sized (input_png output_file quality : string)
    (width height bw bh n : Z) (w : World) :
  run_hidden_command
    (outcome (astcenc_encode (fs w !! input_png) bw bh quality)) = 0 ->
  n <> 0 -> bw <> 0 -> bh <> 0 ->
  encode_texture astcenc_encode can_write input_png output_file width height
    bw bh quality (Some n) w
  = write_output can_write output_file
      (pad_to_size
         (strip_astc_header
            (default [] (produced (astcenc_encode (fs w !! input_png)
                                                  bw bh quality)))) n)
      (log_call (AstcencEncode input_png bw bh quality) w).
Proof.
  intros Hrc Hn Hbw Hbh. unfold encode_texture. rewrite Hrc. simpl negb.
  cbv iota. unfold truthy_int.
  replace (n =? 0) with false by (symmetry; now apply Z.eqb_neq).
  simpl negb. cbv iota.
  rewrite calculate_astc_size_value by assumption. simpl default.
  destruct (len _ =? n) eqn:E; simpl negb; cbv iota; [|reflexivity].
  apply Z.eqb_eq in E. now rewrite pad_to_size_exact.
Qed.

(** X1: when the encoder exits with code 0, the target size is positive and
    the block dimensions are not zero, the outcome of [encode_texture]
    depends on the output path only.  If it can be written,
    [encode_texture] returns [True] and the output file holds exactly
    [target_size] bytes: what the encoder wrote, without its 16-byte header
    when it has one, cut to the target size or followed by zero bytes up to
    it; no other file and no cache record changes.  If it cannot be
    written, [encode_texture] returns [False] and no file changes. *)
Theorem encode_texture_target_length (input_png output_file quality : string)
    (width height bw bh n : Z) (w : World) :
  let run := astcenc_encode (fs w !! input_png) bw bh quality in
  let encoded := strip_astc_header (default [] (produced run)) in
  run_hidden_command (outcome run) = 0 ->
  0 < n -> bw <> 0 -> bh <> 0 ->
  (can_write output_file = true ->
   exists payload w',
     encode_texture astcenc_encode can_write input_png output_file
       width height bw bh quality (Some n) w = (true, w')
     /\ fs w' !! output_file = Some payload
     /\ len payload = n
     /\ payload = take (Z.to_nat n) (encoded ++ repeat x00 (Z.to_nat n))
     /\ (forall path, path <> output_file -> fs w' !! path = fs w !! path)
     /\ DECODE_CACHE w' = DECODE_CACHE w
     /\ tool_log w'
        = tool_log w ++ [AstcencEncode input_png bw bh quality])
  /\ (can_write output_file = false ->
      encode_texture astcenc_encode can_write input_png output_file
        width height bw bh quality (Some n) w
      = (false, log_call (AstcencEncode input_png bw bh quality) w)).
Proof.
  intros run encoded Hrc Hn Hbw Hbh.
  rewrite encode_texture_sized by (assumption || lia).
  fold run. fold encoded. unfold write_output. split; intros ->.
  - eexists _, _. split; [reflexivity|].
    split; [apply lookup_insert_eq|]. split; [apply pad_to_size_len; lia|].
    split; [apply pad_to_size_take; lia|].
    split; [|split; reflexivity].
    intros path Hne. simpl. now rewrite lookup_insert_ne by congruence.
  - reflexivity.
Qed.

(** X2: when the encoder times out or exits with another code than 0, or
    when a target size is set and a block dimension is zero (the unused
    expected-size computation divides by it), [encode_texture] returns
    [False] and writes nothing: only the tool log grows. *)
Theorem encode_texture_failure_writes_nothing
    (input_png output_file quality : string)
    (width height bw bh : Z) (target_size : option Z) (w : World) :
  run_hidden_command
    (outcome (astcenc_encode (fs w !! input_png) bw bh quality)) <> 0
  \/ (truthy_int target_size = true /\ (bw = 0 \/ bh = 0)) ->
  encode_texture astcenc_encode can_write input_png output_file width height
    bw bh quality target_size w
  = (false, log_call (AstcencEncode input_png bw bh quality) w).
Proof.
  intros Hfail. unfold encode_texture.
  destruct (run_hidden_command _ =? 0) eqn:Erc; simpl negb; cbv iota;
    [|reflexivity].
  apply Z.eqb_eq in Erc.
  destruct Hfail as [Hrc | [Ht Hz]]; [congruence|].
  rewrite Ht. unfold calculate_astc_size.
  destruct Hz as [-> | ->].
  - reflexivity.
  - destruct (bw =? 0); reflexivity.
Qed.

End Encoder.

(** ** The mapping lookup *)

Section MappingLookup.

Import ASTCTools.

Lemma substring_split (s : string) (k : nat) :
  (k <= String.length s)%nat ->
  s = substring 0 k s +:+ substring k (String.length s - k) s.
Proof.
  revert k. induction s as [|c s IH]; intros k Hk.
  - destruct k; reflexivity.
  - destruct k as [|k].
    + simpl. now rewrite substring_all.
    + simpl in *.
      transitivity (String c (substring 0 k s
                              +:+ substring k (String.length s - k) s));
        [f_equal; apply IH; lia | reflexivity].
Qed.

Lemma endswith_split (s suffix : string) :
  endswith s suffix = true ->
  s = drop_last (String.length suffix) s +:+ suffix.
Proof.
  unfold endswith, drop_last. intros H.
  apply andb_true_iff in H as [Hlen Heq].
  apply Nat.leb_le in Hlen. apply String.eqb_eq in Heq.
  rewrite (substring_split s (String.length s - String.length suffix))
    at 1 by lia.
  replace (String.length s - (String.length s - String.length suffix))%nat
    with (String.length suffix) by lia.
  now rewrite Heq.
Qed.

Lemma find_by_suffix_Some (name : string) (mapping : gmap string TextureInfo)
    (sfx : list string) (info : TextureInfo) :
  find_by_suffix name mapping sfx = Some info ->
  exists base suffix,
    In suffix sfx /\ name = base +:+ suffix /\ mapping !! base = Some info.
Proof.
  induction sfx as [|suffix rest IH]; simpl; [discriminate|].
  intros H.
  destruct (endswith name suffix) eqn:E.
  - destruct (mapping !! drop_last (String.length suffix) name) as [i|] eqn:Eb.
    + injection H as <-.
      exists (drop_last (String.length suffix) name), suffix.
      split; [now left|]. split; [now apply endswith_split | exact Eb].
    + destruct (IH H) as (base & sfx' & Hin & Hname & Hbase).
      exists base, sfx'. split; [now right | auto].
  - destruct (IH H) as (base & sfx' & Hin & Hname & Hbase).
    exists base, sfx'. split; [now right | auto].
Qed.

(** X3: [find_texture_info] finds an entry exactly when the name has one of
    its own, or has none and is a base name that has one followed by one of
    the eight channel suffixes; the name's own entry wins, and only one
    suffix is ever stripped. *)
Theorem find_texture_info_iff (name : string)
    (mapping : gmap string TextureInfo) (info : TextureInfo) :
  find_texture_info name mapping = Some info
  <-> mapping !! name = Some info
      \/ (mapping !! name = None
          /\ exists base suffix,
               In suffix suffixes /\ name = base +:+ suffix
               /\ mapping !! base = Some info).
Proof.
  split.
  - unfold find_texture_info. intros H.
    destruct (mapping !! name) as [i|] eqn:E; [left; exact H|].
    right. split; [reflexivity|]. now apply find_by_suffix_Some.
  - intros [H | (Hnone & base & suffix & Hin & -> & Hbase)].
    + unfold find_texture_info. now rewrite H.
    + now apply find_texture_info_suffix.
Qed.

End MappingLookup.

(** ** The mapping path of the resolver *)

Section MappingPath.

Import ASTCTools.

Variable astcenc_decode : list byte -> ToolRun.
Variable path_stem : string -> string.
Variable path_join : string -> string -> string.
Variables texture_file output_path : string.

Local Notation "'out_file'" :=
  (Notions.mapping_output path_stem path_join texture_file output_path).

(** A rejected candidate whose output file was not there before leaves the
    files and the cache as they were. *)
Lemma decode_with_config_rejected_world (raw_file output_file : string)
    (width height bw bh : Z) (cache_key : option string) (w : World) :
  fs w !! output_file = None ->
  let r := decode_with_config astcenc_decode raw_file output_file
             width height bw bh cache_key w in
  fst r = false ->
  fs (snd r) = fs w /\ DECODE_CACHE (snd r) = DECODE_CACHE w.
Proof.
  intros Hpre r Hrej.
  pose proof (decode_with_config_cases astcenc_decode raw_file output_file
                width height bw bh cache_key w) as Hc.
  cbv zeta in Hc. fold r in Hc.
  destruct (wrap_raw_astc raw_file width height bw bh w) as [wrapped|].
  - destruct Hc as (Hfst & Hsnd & _). rewrite Hsnd by congruence.
    unfold run_astcenc_decode, unlink, set_fs. simpl.
    destruct (produced (astcenc_decode wrapped)); simpl.
    + rewrite delete_insert_eq, delete_id by exact Hpre. auto.
    + rewrite delete_id by exact Hpre. auto.
  - rewrite Hc. auto.
Qed.

(** X4: a mapping resolution that fails in a fresh output directory, for
    want of a mapping entry or because every block size was rejected, leaves
    every file and the parameter cache exactly as they were; only the tool
    log can have grown. *)
Theorem decode_with_mapping_failure_leaves_no_trace
    (mapping : gmap string TextureInfo) (w w' : World) :
  fs w !! out_file = None ->
  decode_with_mapping astcenc_decode path_stem path_join texture_file
    output_path mapping w = (false, w') ->
  fs w' = fs w /\ DECODE_CACHE w' = DECODE_CACHE w.
Proof.
  intros Hpre. unfold decode_with_mapping.
  destruct (find_texture_info _ mapping) as [info|];
    [|intros H; injection H as <-; auto].
  generalize (info_width info) (info_height info) (path_stem texture_file)
             get_common_block_sizes.
  intros width height name sizes. revert w Hpre.
  induction sizes as [|[bw bh] rest IH]; intros w Hpre Hrun.
  - injection Hrun as <-. auto.
  - simpl in Hrun.
    pose proof (decode_with_config_rejected_world texture_file out_file
                  width height bw bh (Some name) w Hpre) as Hstep.
    cbv zeta in Hstep. unfold Notions.mapping_output in *.
    destruct (decode_with_config astcenc_decode texture_file _ width height
                bw bh (Some name) w) as [[] w1]; [discriminate|].
    destruct (Hstep eq_refl) as (Hfs & Hcache). simpl in Hfs, Hcache.
    destruct (IH w1) as (Hfs' & Hcache'); [now rewrite Hfs | exact Hrun |].
    split; congruence.
Qed.

Lemma decode_with_config_missing_file (output_file : string)
    (width height bw bh : Z) (cache_key : option string) (w : World) :
  fs w !! texture_file = None ->
  decode_with_config astcenc_decode texture_file output_file width height
    bw bh cache_key w = (false, w).
Proof.
  intros Hnone. unfold decode_with_config, wrap_raw_astc. rewrite Hnone.
  now destruct (astc_header width height bw bh).
Qed.

(** X5: when the texture file does not exist, the mapping path returns
    [False] without running the decoder and without changing anything (the
    wrap step fails for every block size), while the brute-force path, which
    asks for the size of the file outside any handler, raises
    [FileNotFoundError]. *)
Theorem missing_texture_file (mapping : gmap string TextureInfo) (w : World) :
  fs w !! texture_file = None ->
  decode_with_mapping astcenc_decode path_stem path_join texture_file
    output_path mapping w = (false, w)
  /\ brute_force_decode astcenc_decode path_stem path_join texture_file
       output_path w = (Raise (FileNotFoundError texture_file), w).
Proof.
  intros Hnone. split.
  - unfold decode_with_mapping.
    destruct (find_texture_info _ mapping) as [info|]; [|reflexivity].
    generalize get_common_block_sizes. intros sizes.
    induction sizes as [|[bw bh] rest IH]; [reflexivity|].
    simpl. now rewrite decode_with_config_missing_file.
  - unfold brute_force_decode, Env.bind, getsize. now rewrite Hnone.
Qed.

Section FreshDirectory.

Variable raw : list byte.
Variables width height : Z.
Variable texture_name : string.

Local Notation "'bs_ok'" :=
  (fun bs => Spec.validates astcenc_decode
               (Notions.block_wrapped raw width height bs)).
Local Notation "'bs_call'" :=
  (fun bs => AstcencDecode (Notions.block_wrapped raw width height bs)
                           out_file).

Lemma decode_with_mapping_loop_spec (sizes : list (Z * Z)) (w : World) :
  0 <= width < 2 ^ 32 -> 0 <= height < 2 ^ 32 ->
  Forall (fun bs => 0 <= fst bs <= 255 /\ 0 <= snd bs <= 255) sizes ->
  fs w !! texture_file = Some raw ->
  out_file <> texture_file ->
  fs w !! out_file = None ->
  exists w',
    decode_with_mapping_loop astcenc_decode path_stem path_join sizes
      texture_file output_path width height texture_name w
    = (existsb bs_ok sizes, w')
    /\ tool_log w' = tool_log w ++ map bs_call (Spec.tried_until bs_ok sizes)
    /\ match List.find bs_ok sizes with
       | Some bs =>
           exists image,
             produced (astcenc_decode
                         (Notions.block_wrapped raw width height bs))
             = Some image
             /\ fs w' = <[out_file := image]> (fs w)
             /\ DECODE_CACHE w'
                = if truthy_str (Some texture_name)
                  then <[texture_name :=
                           mkDecodeParams width height (fst bs) (snd bs)
                                          (len raw)]> (DECODE_CACHE w)
                  else DECODE_CACHE w
       | None => fs w' = fs w /\ DECODE_CACHE w' = DECODE_CACHE w
       end.
Proof.
  intros Hw Hh Hsizes Hraw Hne. revert w Hraw.
  induction Hsizes as [|[bw bh] rest [Hbw Hbh] Hrest IH];
    intros w Hraw Hfresh.
  - exists w. simpl. rewrite app_nil_r. auto.
  - simpl in Hbw, Hbh. simpl decode_with_mapping_loop.
    pose proof (astc_header_bytes width height bw bh Hw Hh Hbw Hbh) as Hbytes.
    destruct (astc_header width height bw bh) as [header|] eqn:Hhdr;
      [clear Hbytes | discriminate].
    pose proof (decode_with_config_fresh astcenc_decode texture_file out_file
                  raw header width height bw bh (Some texture_name) w
                  Hraw Hhdr Hfresh Hne) as Hstep.
    cbv zeta in Hstep.
    assert (Hwrap : Notions.block_wrapped raw width height (bw, bh)
                    = header ++ raw).
    { unfold Notions.block_wrapped, Spec.wrapped_blob. simpl.
      now rewrite Hhdr. }
    rewrite <- Hwrap in Hstep.
    unfold Notions.mapping_output in *.
    simpl existsb. simpl Spec.tried_until. simpl List.find.
    destruct (Spec.validates astcenc_decode
                (Notions.block_wrapped raw width height (bw, bh))) eqn:Eok.
    + destruct Hstep as (image & Hprod & ->).
      eexists. split; [reflexivity|].
      destruct (truthy_str (Some texture_name));
        (split; [reflexivity|]); exists image;
        (split; [exact Hprod|]); split; reflexivity.
    + rewrite Hstep.
      destruct (IH (log_call
                      (AstcencDecode
                         (Notions.block_wrapped raw width height (bw, bh))
                         (path_join output_path
                            (path_stem texture_file +:+ ".png"))) w))
        as (w' & Hrun & Hlog & Hfin); [exact Hraw | exact Hfresh |].
      exists w'. split; [exact Hrun|]. split; [|exact Hfin].
      rewrite Hlog. simpl. now rewrite <- app_assoc.
Qed.

End FreshDirectory.

Lemma common_block_sizes_bytes :
  Forall (fun bs : Z * Z => 0 <= fst bs <= 255 /\ 0 <= snd bs <= 255)
         get_common_block_sizes.
Proof. repeat constructor; simpl; lia. Qed.

(** X6: on a mapping hit with dimensions of 32 bits, in a fresh output
    directory, the mapping path runs the decoder on the thirteen common
    block sizes in their priority order and stops at the first one that
    validates; that block size, with the mapping's width and height and the
    size of the blob, is the record it caches under the texture's name. When
    none validates it returns [False] and caches nothing. *)
Theorem decode_with_mapping_first_block_size
    (mapping : gmap string TextureInfo) (info : TextureInfo)
    (raw : list byte) (w : World) :
  let width := info_width info in
  let height := info_height info in
  let ok := fun bs => Spec.validates astcenc_decode
                        (Notions.block_wrapped raw width height bs) in
  find_texture_info (path_stem texture_file) mapping = Some info ->
  0 <= width < 2 ^ 32 -> 0 <= height < 2 ^ 32 ->
  fs w !! texture_file = Some raw ->
  out_file <> texture_file ->
  fs w !! out_file = None ->
  exists w',
    decode_with_mapping astcenc_decode path_stem path_join texture_file
      output_path mapping w
    = (existsb ok get_common_block_sizes, w')
    /\ tool_log w'
       = tool_log w
         ++ map (fun bs => AstcencDecode
                             (Notions.block_wrapped raw width height bs)
                             out_file)
                (Spec.tried_until ok get_common_block_sizes)
    /\ match List.find ok get_common_block_sizes with
       | Some bs =>
           exists image,
             produced (astcenc_decode
                         (Notions.block_wrapped raw width height bs))
             = Some image
             /\ fs w' = <[out_file := image]> (fs w)
             /\ DECODE_CACHE w'
                = if truthy_str (Some (path_stem texture_file))
                  then <[path_stem texture_file :=
                           mkDecodeParams width height (fst bs) (snd bs)
                                          (len raw)]> (DECODE_CACHE w)
                  else DECODE_CACHE w
       | None => fs w' = fs w /\ DECODE_CACHE w' = DECODE_CACHE w
       end.
Proof.
  intros width height ok Hhit Hw Hh Hraw Hne Hfresh.
  unfold decode_with_mapping. rewrite Hhit.
  apply decode_with_mapping_loop_spec;
    auto using common_block_sizes_bytes.
Qed.

End MappingPath.

(** ** Resolution followed by re-encoding *)

Section ResolveThenEncode.

Import ASTCTools.

Variable astcenc_decode : list byte -> ToolRun.
Variable astcenc_encode : option (list byte) -> Z -> Z -> string -> ToolRun.
Variable can_write : string -> bool.
Variable path_stem : string -> string.
Variable path_join : string -> string -> string.



End ResolveThenEncode.

(** ** The wrapper header in detail *)

Section HeaderDetail.

Import ASTCTools.

Lemma astc_header_Ret_packable (w h bw bh : Z) (header : list byte) :
  astc_header w h bw bh = Ret header -> Notions.header_packable w h bw bh.
Proof.
  unfold astc_header, struct_pack_3B, struct_pack_I, Notions.header_packable.
  simpl forallb.
  destruct (0 <=? bw) eqn:B1; destruct (bw <=? 255) eqn:B2;
  destruct (0 <=? bh) eqn:B3; destruct (bh <=? 255) eqn:B4;
  destruct (0 <=? w) eqn:W1; destruct (w <? 2 ^ 32) eqn:W2;
  destruct (0 <=? h) eqn:H1; destruct (h <? 2 ^ 32) eqn:H2;
  simpl; try discriminate.
  intros _.
  apply Z.leb_le in B1, B2, B3, B4, W1, H1.
  apply Z.ltb_lt in W2, H2. lia.
Qed.

(** X8: [wrap_raw_astc] succeeds exactly when the raw file exists, width and
    height fit 32 bits and both block dimensions fit one byte; a negative or
    oversized dimension makes it return [False] instead of raising. *)
Theorem wrap_raw_astc_succeeds_iff (raw_path : string) (w h bw bh : Z)
    (world : World) :
  is_Some (wrap_raw_astc raw_path w h bw bh world)
  <-> Notions.header_packable w h bw bh /\ is_Some (fs world !! raw_path).
Proof.
  unfold wrap_raw_astc. split.
  - destruct (astc_header w h bw bh) as [header|] eqn:Hhdr;
      [|intros [? ?]; discriminate].
    destruct (fs world !! raw_path) as [raw|]; [|intros [? ?]; discriminate].
    intros _. split; [now apply (astc_header_Ret_packable _ _ _ _ header)|].
    eauto.
  - intros [(Hw & Hh & Hbw & Hbh) [raw Hraw]].
    rewrite astc_header_bytes, Hraw by assumption. eauto.
Qed.

Lemma le24_of_bytes (x : Z) :
  0 <= x ->
  byte_to_Z (byte_of_Z x)
  + 2 ^ 8 * byte_to_Z (byte_of_Z (Z.shiftr x 8))
  + 2 ^ 16 * byte_to_Z (byte_of_Z (Z.shiftr x 16))
  = x mod 2 ^ 24.
Proof.
  intros Hx. rewrite !byte_to_of_Z, !Z.shiftr_div_pow2 by lia.
  change (2 ^ 16) with (2 ^ 8 * 2 ^ 8). rewrite <- Z.div_div by lia.
  change (2 ^ 8) with 256.
  pose proof (Z.div_mod x 256 ltac:(lia)) as E0.
  pose proof (Z.mod_pos_bound x 256 ltac:(lia)) as B0.
  pose proof (Z.div_mod (x / 256) 256 ltac:(lia)) as E1.
  pose proof (Z.mod_pos_bound (x / 256) 256 ltac:(lia)) as B1.
  pose proof (Z.div_mod (x / 256 / 256) 256 ltac:(lia)) as E2.
  pose proof (Z.mod_pos_bound (x / 256 / 256) 256 ltac:(lia)) as B2.
  apply (Z.mod_unique x (2 ^ 24) (x / 256 / 256 / 256)); lia.
Qed.

(** X9: the header the wrapper builds is sixteen bytes: the magic, the two
    block dimensions, the byte 1, then width, height and depth 1 in three
    bytes each. A width or height of 2^24 or more is not refused: only its
    low 24 bits are stored. *)
Theorem astc_header_layout (w h bw bh : Z) :
  Notions.header_packable w h bw bh ->
  exists header,
    astc_header w h bw bh = Ret header
    /\ length header = 16%nat
    /\ take 4 header = astc_magic
    /\ byte_to_Z (nth 4 header x00) = bw
    /\ byte_to_Z (nth 5 header x00) = bh
    /\ nth 6 header x00 = x01
    /\ Notions.le24_at 7 header = w mod 2 ^ 24
    /\ Notions.le24_at 10 header = h mod 2 ^ 24
    /\ Notions.le24_at 13 header = 1.
Proof.
  intros (Hw & Hh & Hbw & Hbh).
  eexists. split; [now apply astc_header_bytes|].
  split; [reflexivity|]. split; [reflexivity|].
  split; [simpl; rewrite byte_to_of_Z; apply Z.mod_small; lia|].
  split; [simpl; rewrite byte_to_of_Z; apply Z.mod_small; lia|].
  split; [reflexivity|].
  split; [apply le24_of_bytes; lia|].
  split; [apply le24_of_bytes; lia | reflexivity].
Qed.

(** X10: for positive arguments [calculate_astc_size] is a positive multiple
    of 16 whose blocks cover the image and overshoot it by less than one
    block in each direction; a zero block dimension raises
    [ZeroDivisionError]. *)
Theorem calculate_astc_size_covers (w h bw bh : Z) :
  (bw = 0 \/ bh = 0 ->
   calculate_astc_size w h bw bh = Raise ZeroDivisionError)
  /\ (0 < w -> 0 < h -> 0 < bw -> 0 < bh ->
      exists s,
        calculate_astc_size w h bw bh = Ret s
        /\ 16 <= s
        /\ s mod 16 = 0
        /\ 16 * (w * h) <= s * (bw * bh)
        /\ s * (bw * bh) < 16 * ((w + bw) * (h + bh))).
Proof.
  split.
  - unfold calculate_astc_size. intros [-> | ->]; [reflexivity|].
    destruct (bw =? 0); reflexivity.
  - intros Hw Hh Hbw Hbh.
    eexists. split; [apply calculate_astc_size_value; lia|].
    pose proof (blocks_positive w bw Hw Hbw) as Px.
    pose proof (blocks_positive h bh Hh Hbh) as Py.
    pose proof (Z.div_mod (w + bw - 1) bw ltac:(lia)) as Ex.
    pose proof (Z.mod_pos_bound (w + bw - 1) bw Hbw) as Bx.
    pose proof (Z.div_mod (h + bh - 1) bh ltac:(lia)) as Ey.
    pose proof (Z.mod_pos_bound (h + bh - 1) bh Hbh) as By.
    set (bx := (w + bw - 1) / bw) in *. set (by' := (h + bh - 1) / bh) in *.
    assert (Hx1 : w <= bx * bw) by lia.
    assert (Hx2 : bx * bw < w + bw) by lia.
    assert (Hy1 : h <= by' * bh) by lia.
    assert (Hy2 : by' * bh < h + bh) by lia.
    split; [nia|]. split; [apply Z.mod_mul; lia|].
    split.
    + replace (bx * by' * 16 * (bw * bh)) with (16 * ((bx * bw) * (by' * bh)))
        by ring.
      apply Z.mul_le_mono_nonneg_l; [lia|].
      apply Z.mul_le_mono_nonneg; lia.
    + replace (bx * by' * 16 * (bw * bh)) with (16 * ((bx * bw) * (by' * bh)))
        by ring.
      apply Z.mul_lt_mono_pos_l; [lia|].
      apply Z.mul_lt_mono_nonneg; lia.
Qed.

End HeaderDetail.

(** ** Resolution through a stripped suffix *)

Section SuffixResolution.

Import ASTCTools.

Variable astcenc_decode : list byte -> ToolRun.
Variable path_stem : string -> string.
Variable path_join : string -> string -> string.




End SuffixResolution.

(** ** More on the descriptor size field *)

Section SizeFieldMore.

Import TextureReplacer.

(** X11: [hex_edit_file_size] succeeds exactly when the file exists, has at
    least 248 bytes and the size fits 32 bits unsigned; when it fails the
    world is unchanged; and it never touches another file, the cache or the
    tool log. *)
Theorem hex_edit_file_size_frame (file_path : string) (new_size : Z)
    (w : World) :
  let r := hex_edit_file_size file_path new_size w in
  (fst r = true <->
     exists data, fs w !! file_path = Some data
                  /\ 248 <= len data /\ 0 <= new_size < 2 ^ 32)
  /\ (fst r = false -> snd r = w)
  /\ (forall path, path <> file_path -> fs (snd r) !! path = fs w !! path)
  /\ DECODE_CACHE (snd r) = DECODE_CACHE w
  /\ tool_log (snd r) = tool_log w.
Proof.
  intros r. subst r. unfold hex_edit_file_size.
  destruct (fs w !! file_path) as [data|] eqn:Hfile.
  - destruct (248 <=? len data) eqn:Hlen.
    + apply Z.leb_le in Hlen.
      destruct (decide (0 <= new_size < 2 ^ 32)) as [Hsize | Hsize].
      * rewrite struct_pack_I_le32_bytes by exact Hsize. simpl.
        split; [split; eauto|]. split; [discriminate|].
        split; [|auto]. intros path Hne.
        now rewrite lookup_insert_ne by congruence.
      * rewrite struct_pack_I_out_of_range by exact Hsize. simpl.
        split; [|auto]. split; [discriminate|].
        intros (data' & Hd & _ & Hs). contradiction.
    + apply Z.leb_gt in Hlen. simpl.
      split; [|auto]. split; [discriminate|].
      intros (data' & Hd & Hl & _). injection Hd as <-. lia.
  - simpl. split; [|auto]. split; [discriminate|].
    intros (data' & Hd & _). discriminate.
Qed.

(** X12: patching twice is patching once with the last size: the second
    value overwrites the first and nothing else of the first patch stays. *)
Theorem hex_edit_file_size_last_wins (file_path : string) (data : list byte)
    (n m : Z) (w : World) :
  fs w !! file_path = Some data ->
  248 <= len data ->
  0 <= n < 2 ^ 32 -> 0 <= m < 2 ^ 32 ->
  hex_edit_file_size file_path m (snd (hex_edit_file_size file_path n w))
  = hex_edit_file_size file_path m w.
Proof.
  intros Hfile Hlen Hn Hm.
  rewrite (hex_edit_file_size_patch file_path data n w Hfile Hlen Hn).
  cbn [snd].
  set (data' := take 244 data ++ Spec.le32_bytes n ++ drop 248 data).
  assert (Hn' : (248 <= length data)%nat) by (unfold len in Hlen; lia).
  assert (Hlen' : 248 <= len data').
  { destruct (patched_descriptor data n Hlen Hn) as (Hl & _).
    fold data' in Hl. unfold len in *. lia. }
  rewrite (hex_edit_file_size_patch file_path data' m
             (write_bytes file_path data' w) (lookup_insert_eq _ _ _)
             Hlen' Hm).
  rewrite (hex_edit_file_size_patch file_path data m w Hfile Hlen Hm).
  f_equal.
  assert (Htake : take 244 data' = take 244 data).
  { unfold data'. rewrite take_app_length'; [reflexivity|].
    rewrite length_take. lia. }
  assert (Hdrop : drop 248 data' = drop 248 data).
  { unfold data'. rewrite app_assoc.
    rewrite drop_app_length'; [reflexivity|].
    rewrite length_app, length_take.
    change (length (Spec.le32_bytes n)) with 4%nat. lia. }
  rewrite Htake, Hdrop. unfold write_bytes, set_fs. simpl.
  now rewrite insert_insert_eq.
Qed.

End SizeFieldMore.

(** ** The format fields of the desktop header *)

Section FormatFields.

Import DDSHandler.

Lemma slice_of_header (lo hi : nat) (data : list byte) :
  (lo <= hi)%nat -> (hi <= 124)%nat ->
  slice lo hi (take 124 (drop 4 data)) = slice (4 + lo) (4 + hi) data.
Proof.
  intros H1 H2. unfold slice.
  rewrite skipn_firstn_comm, take_take, drop_drop.
  replace (4 + hi - (4 + lo))%nat with (hi - lo)%nat by lia.
  f_equal. lia.
Qed.

(** X13: for a file of at least 128 bytes that starts with the signature,
    [get_dds_info] reports the length of the file as its size; it reads a
    format code only when the fourCC is [DX10] and the 20-byte extension is
    complete (148 bytes in all), and then the code is the little-endian value
    at offset 128; and it flags the texture as problematic exactly when that
    code is 26, 72, 78 or 87. *)
Theorem get_dds_info_format_fields (file_path : string) (data : list byte)
    (w : World) :
  fs w !! file_path = Some data ->
  128 <= len data -> take 4 data = b "DDS " ->
  exists info,
    get_dds_info file_path w = Some info
    /\ file_size info = len data
    /\ format_code info
       = (if bool_decide (slice 84 88 data = b "DX10" /\ 148 <= len data)
          then Some (Spec.le32_at 128 data) else None)
    /\ (is_problematic info = true
        <-> slice 84 88 data = b "DX10" /\ 148 <= len data
            /\ In (Spec.le32_at 128 data) [26; 72; 78; 87]).
Proof.
  intros Hfile Hlen Hsig. unfold get_dds_info. rewrite Hfile.
  unfold parse_dds.
  rewrite bool_decide_eq_true_2 by exact Hsig. simpl negb. cbv iota.
  assert (Hh : length (take 124 (drop 4 data)) = 124%nat).
  { unfold len in Hlen. rewrite length_take, length_drop. lia. }
  replace (len (take 124 (drop 4 data)) <? 124) with false
    by (symmetry; apply Z.ltb_ge; unfold len; lia).
  rewrite (slice_4 8), (slice_4 12), (slice_4 24), (slice_4 76) by lia.
  cbn [mbind pyresult_bind].
  rewrite (slice_of_header 80 84) by lia.
  change (4 + 80)%nat with 84%nat. change (4 + 84)%nat with 88%nat.
  set (four_cc := slice 84 88 data).
  assert (Hext : (20 <=? len (take 20 (drop 128 data))) = true
                 <-> 148 <= len data).
  { rewrite Z.leb_le. unfold len. rewrite length_take, length_drop. lia. }
  destruct (decide (four_cc = b "DXT1")) as [E1|E1].
  { rewrite bool_decide_eq_true_2 by exact E1.
    eexists. split; [reflexivity|]. split; [reflexivity|]. simpl.
    rewrite bool_decide_eq_false_2
      by (intros [Hx _]; rewrite E1 in Hx; discriminate).
    split; [reflexivity|]. split; [discriminate|].
    intros (Hx & _). rewrite E1 in Hx. discriminate. }
  rewrite (bool_decide_eq_false_2 _ E1).
  destruct (decide (four_cc = b "DXT3")) as [E2|E2].
  { rewrite bool_decide_eq_true_2 by exact E2.
    eexists. split; [reflexivity|]. split; [reflexivity|]. simpl.
    rewrite bool_decide_eq_false_2
      by (intros [Hx _]; rewrite E2 in Hx; discriminate).
    split; [reflexivity|]. split; [discriminate|].
    intros (Hx & _). rewrite E2 in Hx. discriminate. }
  rewrite (bool_decide_eq_false_2 _ E2).
  destruct (decide (four_cc = b "DXT5")) as [E3|E3].
  { rewrite bool_decide_eq_true_2 by exact E3.
    eexists. split; [reflexivity|]. split; [reflexivity|]. simpl.
    rewrite bool_decide_eq_false_2
      by (intros [Hx _]; rewrite E3 in Hx; discriminate).
    split; [reflexivity|]. split; [discriminate|].
    intros (Hx & _). rewrite E3 in Hx. discriminate. }
  rewrite (bool_decide_eq_false_2 _ E3).
  destruct (decide (four_cc = b "DX10")) as [E4|E4].
  - rewrite (bool_decide_eq_true_2 _ E4).
    destruct (20 <=? len (take 20 (drop 128 data))) eqn:E.
    + pose proof (proj1 Hext eq_refl) as H148.
      assert (Hcode : struct_unpack_I (slice 0 4 (take 20 (drop 128 data)))
                      = Ret (Spec.le32_at 128 data)).
      { rewrite (slice_4 0)
          by (rewrite length_take, length_drop; unfold len in H148; lia).
        f_equal. unfold Spec.le32_at.
        rewrite !nth_firstn, !nth_skipn. simpl Nat.ltb. cbv iota.
        reflexivity. }
      rewrite Hcode. cbn [mbind pyresult_bind].
      eexists. split; [reflexivity|]. split; [reflexivity|].
      cbn [is_problematic format_code].
      rewrite bool_decide_eq_true_2 by auto.
      split; [reflexivity|].
      rewrite bool_decide_eq_true, list_elem_of_In. tauto.
    + assert (H148 : ~ 148 <= len data)
        by (intros Hx; apply Hext in Hx; congruence).
      eexists. split; [reflexivity|]. split; [reflexivity|]. simpl.
      rewrite bool_decide_eq_false_2 by tauto.
      split; [reflexivity|]. split; [discriminate | tauto].
  - rewrite (bool_decide_eq_false_2 _ E4).
    destruct (negb _);
      (eexists; split; [reflexivity|]; split; [reflexivity|]; simpl;
       rewrite bool_decide_eq_false_2 by tauto;
       split; [reflexivity|]; split; [discriminate | tauto]).
Qed.

End FormatFields.

(** ** More on the replacement engine *)

Section EngineMore.

Import DDSHandler ASTCTools TextureReplacer.

Variable astcenc_encode : option (list byte) -> Z -> Z -> string -> ToolRun.
Variable os_path_join : string -> string -> string.
Variable os_path_basename : string -> string.
Variable os_path_splitext : string -> string.
Variable gettempdir : string.
Variable get_settings_path : string -> string.
Variable get_cache_dir : string.
Variable astcenc_path : string.
Variable mapping : gmap string TextureInfo.
Variable texconv : option (list byte) -> Z -> Z -> option (list byte).
Variable pcvr_replace_path : string -> string.

Local Notation "'replace_quest'" :=
  (replace_quest_texture astcenc_encode os_path_join os_path_basename
     os_path_splitext gettempdir get_settings_path get_cache_dir astcenc_path
     mapping).

Local Notation "'replace_pcvr'" :=
  (replace_pcvr_texture os_path_join os_path_basename texconv
     pcvr_replace_path).

Section Desktop.

Variables output_folder pcvr_input_folder : string.
Variables original_texture_path replacement_texture_path : string.

Local Notation "'texture_name'" := (os_path_basename original_texture_path).
Local Notation "'input_texture_path'" :=
  (os_path_join (os_path_join pcvr_input_folder "beac1969cb7b8861")
                (os_path_basename original_texture_path)).
Local Notation "'input_corresponding_path'" :=
  (os_path_join (os_path_join pcvr_input_folder "4a4c32c49300b8a0")
                (os_path_basename original_texture_path)).
Local Notation "'output_corresponding_file'" :=
  (os_path_join (os_path_join output_folder "4a4c32c49300b8a0")
                (os_path_basename original_texture_path)).


(** A replacement that is the staged payload file itself, under the same
    or another spelling: [shutil.copy2] raises before it writes anything and
    the handler reports the error. *)
Lemma replace_pcvr_texture_same_file (orig_info : DDSInfo) (rb : list byte)
    (replacement_size : option Z) (w : World) :
  get_dds_info original_texture_path w = Some orig_info ->
  endswith (lower replacement_texture_path) ".dds" = true ->
  fs w !! replacement_texture_path = Some rb ->
  get_dds_info replacement_texture_path w = None
  \/ (exists ri, get_dds_info replacement_texture_path w = Some ri
                 /\ width ri = width orig_info
                 /\ height ri = height orig_info) ->
  samefile replacement_texture_path input_texture_path w = true ->
  replace_pcvr output_folder pcvr_input_folder original_texture_path
    replacement_texture_path replacement_size w
  = ((false, PcvrReplacementError (SameFileError replacement_texture_path)),
     w).
Proof.
  intros Horig Hname Hrepl Hparse Hsame.
  unfold replace_pcvr_texture, replace_pcvr_texture_try.
  unfold Env.bind at 1, gets at 1. rewrite Horig.
  unfold Env.bind at 1, gets at 1. rewrite Hname.
  rewrite (proj2 (file_exists_true replacement_texture_path w)) by eauto.
  simpl andb.
  unfold Env.bind at 1, gets at 1. cbv iota.
  assert (Hneeds :
    negb true
    || match get_dds_info replacement_texture_path w with
       | Some repl_info =>
           negb (width repl_info =? width orig_info)
           || negb (height repl_info =? height orig_info)
       | None => false
       end = false).
  { destruct Hparse as [-> | (ri & -> & -> & ->)]; [reflexivity|].
    now rewrite !Z.eqb_refl. }
  rewrite Hneeds. simpl orb. cbv iota.
  unfold Env.bind at 1.
  assert (Hchosen :
    Env.bind match replacement_size with
             | Some size => ret size
             | None => getsize replacement_texture_path
             end
             (fun size => ret (Some (replacement_texture_path, size))) w
    = (Ret (Some (replacement_texture_path,
                  default (len rb) replacement_size)), w)).
  { unfold Env.bind, getsize, ret.
    destruct replacement_size; [reflexivity | now rewrite Hrepl]. }
  rewrite Hchosen. clear Hchosen.
  unfold Env.bind at 1, copy2 at 1. now rewrite Hrepl, Hsame.
Qed.



(** When is the conversion entered: the replacement is not an existing
    [.dds] file, or its header parses and a dimension differs. *)
Lemma replace_pcvr_converted (orig_info : DDSInfo)
    (replacement_size : option Z) (w : World) :
  get_dds_info original_texture_path w = Some orig_info ->
  endswith (lower replacement_texture_path) ".dds"
  && file_exists replacement_texture_path w = false
  \/ (exists ri, get_dds_info replacement_texture_path w = Some ri
                 /\ (width ri <> width orig_info
                     \/ height ri <> height orig_info)) ->
  replace_pcvr_texture_try os_path_join os_path_basename texconv
    pcvr_replace_path output_folder pcvr_input_folder original_texture_path
    replacement_texture_path replacement_size w
  = Env.bind
      (convert_to_dds texconv pcvr_replace_path replacement_texture_path
         (width orig_info) (height orig_info))
      (fun chosen =>
         match chosen with
         | None => ret (false, ConversionFailed)
         | Some (dds_path, replacement_size) =>
             do_ copy2 dds_path input_texture_path;
             do_ modify (fun w =>
               if negb (String.eqb dds_path replacement_texture_path)
                  && file_exists dds_path w
               then unlink dds_path w else w);
             do present <- gets (file_exists output_corresponding_file);
             if present then
               do_ copy2 output_corresponding_file input_corresponding_path;
               do patched <- (fun w =>
                 let '(ok, w1) :=
                   hex_edit_file_size input_corresponding_path
                                      replacement_size w in
                 (Ret ok, w1));
               if patched then ret (true, PcvrReplaced replacement_size)
               else ret (false, FailedToUpdateFileSize)
             else ret (false, CorrespondingFileNotFound)
         end) w.
Proof.
  intros Horig Hconv.
  unfold replace_pcvr_texture_try.
  unfold Env.bind at 1, gets at 1. rewrite Horig.
  unfold Env.bind at 1, gets at 1.
  unfold Env.bind at 1, gets at 1.
  assert (Hneeds :
    let is_dds := endswith (lower replacement_texture_path) ".dds"
                  && file_exists replacement_texture_path w in
    negb is_dds
    || match (if is_dds then get_dds_info replacement_texture_path w
              else None) with
       | Some repl_info =>
           negb (width repl_info =? width orig_info)
           || negb (height repl_info =? height orig_info)
       | None => false
       end
    || negb is_dds = true).
  { cbv zeta.
    destruct (endswith (lower replacement_texture_path) ".dds"
              && file_exists replacement_texture_path w) eqn:E;
      [|reflexivity].
    destruct Hconv as [Hx | (ri & -> & Hdim)]; [discriminate|].
    simpl. rewrite orb_false_r. apply orb_true_iff.
    destruct Hdim as [Hd | Hd]; [left | right];
      apply negb_true_iff, Z.eqb_neq; exact Hd. }
  cbv zeta in Hneeds. rewrite Hneeds. reflexivity.
Qed.

(** X16: when the replacement has to be converted (it is not an existing
    [.dds] file, or it is one with other dimensions than the original) and
    the conversion fails, [replace_pcvr_texture] returns the conversion
    failure and stages nothing: the conversion was asked for the original's
    width and height, and no file has changed. *)
Theorem replace_pcvr_texture_conversion_fails (orig_info : DDSInfo)
    (replacement_size : option Z) (w : World) :
  get_dds_info original_texture_path w = Some orig_info ->
  endswith (lower replacement_texture_path) ".dds"
  && file_exists replacement_texture_path w = false
  \/ (exists ri, get_dds_info replacement_texture_path w = Some ri
                 /\ (width ri <> width orig_info
                     \/ height ri <> height orig_info)) ->
  texconv (fs w !! replacement_texture_path)
          (width orig_info) (height orig_info) = None ->
  replace_pcvr output_folder pcvr_input_folder original_texture_path
    replacement_texture_path replacement_size w
  = ((false, ConversionFailed),
     log_call (ConvertToDDS replacement_texture_path
                 (width orig_info) (height orig_info)) w).
Proof.
  intros Horig Hconv Hfail. unfold replace_pcvr_texture.
  rewrite (replace_pcvr_converted orig_info) by assumption.
  unfold Env.bind at 1, convert_to_dds. now rewrite Hfail.
Qed.


(** When the header of the original cannot be read (the file is missing,
    too short or has another signature), [replace_pcvr_texture] gives up
    before it looks at the replacement: nothing is converted, staged or
    patched. *)
Lemma replace_pcvr_texture_unreadable_original
    (replacement_size : option Z) (w : World) :
  get_dds_info original_texture_path w = None ->
  replace_pcvr output_folder pcvr_input_folder original_texture_path
    replacement_texture_path replacement_size w
  = ((false, CouldNotReadOriginal), w).
Proof.
  intros Horig.
  unfold replace_pcvr_texture, replace_pcvr_texture_try.
  unfold Env.bind at 1, gets at 1. now rewrite Horig.
Qed.

End Desktop.

Section Mobile.

Variables output_folder quest_input_folder : string.
Variables original_texture_path replacement_texture_path : string.

Local Notation "'texture_name_no_ext'" :=
  (os_path_splitext (os_path_basename original_texture_path)).
Local Notation "'temp_output'" :=
  (os_path_join gettempdir
     ("encoded_" +:+ os_path_basename original_texture_path)).



End Mobile.

End EngineMore.

(** ** Version comparison *)

Section VersionOrder.

Import Versions.

Variable int : string -> option Z.

Lemma pad_zeros_app (n : nat) (parts : list Z) :
  pad_zeros n parts = parts ++ repeat 0 (n - length parts).
Proof.
  unfold pad_zeros. generalize (n - length parts)%nat. intros k.
  induction k as [|k IH]; simpl.
  - now rewrite app_nil_r.
  - rewrite IH, <- app_assoc. f_equal.
    change (0 :: repeat 0 k) with (repeat 0 (S k)).
    now rewrite <- repeat_cons.
Qed.

Lemma nth_zero_padded (i k : nat) (parts : list Z) :
  nth i (parts ++ repeat 0 k) 0 = nth i parts 0.
Proof.
  destruct (Nat.lt_ge_cases i (length parts)) as [Hlt | Hge].
  - now apply app_nth1.
  - rewrite app_nth2 by lia. rewrite nth_repeat.
    symmetry. now apply nth_overflow.
Qed.

(** The order the comparison computes: at the first position where the
    zero-extended component lists differ, the second is larger. *)
Lemma first_difference_iff (l1 l2 : list Z) :
  length l1 = length l2 ->
  first_difference l1 l2 = true
  <-> exists i : nat,
        (forall j : nat, (j < i)%nat -> nth j l1 0 = nth j l2 0)
        /\ nth i l1 0 < nth i l2 0.
Proof.
  revert l2. induction l1 as [|a l1 IH]; intros [|c l2] Hlen;
    try discriminate.
  - simpl. split; [discriminate|].
    intros (i & _ & H). destruct i; simpl in H; lia.
  - simpl first_difference. injection Hlen as Hlen.
    destruct (a <? c) eqn:E1.
    + apply Z.ltb_lt in E1. split; [|reflexivity].
      intros _. exists 0%nat. split; [lia | exact E1].
    + apply Z.ltb_ge in E1. destruct (c <? a) eqn:E2.
      * apply Z.ltb_lt in E2. split; [discriminate|].
        intros ([|i] & Heq & Hlt); simpl in Hlt; [lia|].
        specialize (Heq 0%nat ltac:(lia)). simpl in Heq. lia.
      * apply Z.ltb_ge in E2. rewrite (IH l2 Hlen). split.
        -- intros (i & Heq & Hlt). exists (S i). split; [|exact Hlt].
           intros [|j] Hj; simpl; [lia | apply Heq; lia].
        -- intros ([|i] & Heq & Hlt); simpl in Hlt; [lia|].
           exists i. split; [|exact Hlt].
           intros j Hj. apply (Heq (S j)). lia.
Qed.

Lemma padded_first_difference_iff (parts1 parts2 : list Z) :
  first_difference
    (pad_zeros (length parts2) parts1)
    (pad_zeros (length (pad_zeros (length parts2) parts1)) parts2) = true
  <-> exists i : nat,
        (forall j : nat, (j < i)%nat -> nth j parts1 0 = nth j parts2 0)
        /\ nth i parts1 0 < nth i parts2 0.
Proof.
  rewrite first_difference_iff.
  - rewrite !pad_zeros_app.
    split; intros (i & Heq & Hlt); exists i; split.
    + intros j Hj. specialize (Heq j Hj).
      now rewrite !nth_zero_padded in Heq.
    + now rewrite !nth_zero_padded in Hlt.
    + intros j Hj. rewrite !nth_zero_padded. now apply Heq.
    + now rewrite !nth_zero_padded.
  - rewrite !pad_zeros_app, !length_app, !repeat_length. lia.
Qed.

(** X20: [compare_versions(v1, v2)] is true exactly when both versions
    parse and, at the first component where they differ once the shorter
    one is extended with zeros, the component of [v2] is larger; a version
    with a piece [int] refuses never compares as older or newer. *)
Theorem compare_versions_iff (v1 v2 : string) :
  compare_versions int v1 v2 = true
  <-> exists parts1 parts2,
        parse_all int (split_dot v1) = Some parts1
        /\ parse_all int (split_dot v2) = Some parts2
        /\ exists i : nat,
             (forall j : nat, (j < i)%nat ->
                nth j parts1 0 = nth j parts2 0)
             /\ nth i parts1 0 < nth i parts2 0.
Proof.
  unfold compare_versions.
  destruct (parse_all int (split_dot v1)) as [p1|].
  - destruct (parse_all int (split_dot v2)) as [p2|].
    + cbv zeta. rewrite padded_first_difference_iff. split.
      * intros H. now exists p1, p2.
      * intros (q1 & q2 & E1 & E2 & H).
        injection E1 as <-. injection E2 as <-. exact H.
    + split; [discriminate|]. intros (? & ? & _ & E & _). discriminate.
  - split; [discriminate|]. intros (? & ? & E & _). discriminate.
Qed.

(** X21: [compare_versions] is a strict order: no version is newer than
    itself, two versions are never each newer than the other, and newer
    than newer is newer. *)
Theorem compare_versions_strict_order (v1 v2 v3 : string) :
  compare_versions int v1 v1 = false
  /\ (compare_versions int v1 v2 = true ->
      compare_versions int v2 v1 = false)
  /\ (compare_versions int v1 v2 = true ->
      compare_versions int v2 v3 = true ->
      compare_versions int v1 v3 = true).
Proof.
  unfold compare_versions.
  destruct (parse_all int (split_dot v1)) as [p1|];
    [|repeat split; discriminate].
  cbv zeta. split; [|split].
  - apply not_true_is_false. rewrite padded_first_difference_iff.
    intros (i & _ & H). lia.
  - destruct (parse_all int (split_dot v2)) as [p2|]; [|discriminate].
    rewrite padded_first_difference_iff. intros (i & Heq & Hlt).
    apply not_true_is_false. rewrite padded_first_difference_iff.
    intros (k & Heq' & Hlt').
    destruct (lt_eq_lt_dec i k) as [[H | H] | H].
    + specialize (Heq' i H). lia.
    + subst k. lia.
    + specialize (Heq k H). lia.
  - destruct (parse_all int (split_dot v2)) as [p2|]; [|discriminate].
    destruct (parse_all int (split_dot v3)) as [p3|]; [|discriminate].
    rewrite !padded_first_difference_iff.
    intros (i & Heq & Hlt) (k & Heq' & Hlt').
    destruct (lt_eq_lt_dec i k) as [[H | H] | H].
    + exists i. split.
      * intros j Hj. rewrite (Heq j Hj). apply Heq'. lia.
      * rewrite <- (Heq' i H). exact Hlt.
    + subst k. exists i. split; [|lia].
      intros j Hj. rewrite (Heq j Hj). now apply Heq'.
    + exists k. split.
      * intros j Hj. rewrite (Heq j ltac:(lia)). now apply Heq'.
      * rewrite (Heq k H). exact Hlt'.
Qed.

(** X22: trailing zero components do not count: a version and the same
    version followed by any number of [.0] pieces are neither newer nor
    older than each other. *)
Theorem compare_versions_trailing_zeros (v1 v2 : string) (parts : list Z)
    (k : nat) :
  parse_all int (split_dot v1) = Some parts ->
  parse_all int (split_dot v2) = Some (parts ++ repeat 0 k) ->
  compare_versions int v1 v2 = false /\ compare_versions int v2 v1 = false.
Proof.
  intros H1 H2. unfold compare_versions. rewrite H1, H2. cbv zeta.
  split; apply not_true_is_false; rewrite padded_first_difference_iff;
    intros (i & _ & H); rewrite nth_zero_padded in H; lia.
Qed.

End VersionOrder.

(** ** Which files the viewer lists *)

Section Listing.

Import DDSHandler ASTCTools Viewer.

Lemma startswith_header (data prefix : list byte) :
  (length prefix <= 16)%nat ->
  startswith (take 16 data) prefix
  = bool_decide (take (length prefix) data = prefix).
Proof.
  intros H. unfold startswith. rewrite take_take.
  now replace (length prefix `min` 16)%nat with (length prefix) by lia.
Qed.

Lemma get_dds_info_signature (file_path : string) (w : World) :
  is_Some (get_dds_info file_path w) ->
  exists data, fs w !! file_path = Some data /\ take 4 data = b "DDS ".
Proof.
  unfold get_dds_info. intros [info H].
  destruct (fs w !! file_path) as [data|]; [|discriminate].
  exists data. split; [reflexivity|].
  destruct (decide (take 4 data = b "DDS ")) as [E|E]; [exact E|].
  rewrite parse_dds_bad_signature in H by exact E. discriminate.
Qed.

(** X23: in desktop mode the viewer lists a file exactly when it exists and
    starts with the four signature bytes. Every texture [get_dds_info] can
    read is therefore listed; but so is a file that has the signature and
    fewer than 128 bytes, which [get_dds_info] cannot read. *)
Theorem desktop_listing (is_quest_textures : bool) (file_path : string)
    (w : World) :
  (is_valid_texture_file true is_quest_textures file_path w = true
   <-> exists data, fs w !! file_path = Some data
                    /\ take 4 data = b "DDS ")
  /\ (is_Some (get_dds_info file_path w) ->
      is_valid_texture_file true is_quest_textures file_path w = true)
  /\ (forall data,
        fs w !! file_path = Some data -> take 4 data = b "DDS " ->
        len data < 128 ->
        is_valid_texture_file true is_quest_textures file_path w = true
        /\ get_dds_info file_path w = None).
Proof.
  assert (Hiff :
    is_valid_texture_file true is_quest_textures file_path w = true
    <-> exists data, fs w !! file_path = Some data
                     /\ take 4 data = b "DDS ").
  { unfold is_valid_texture_file.
    destruct (fs w !! file_path) as [data|].
    - destruct (len data =? 0) eqn:E.
      + apply Z.eqb_eq in E. split; [discriminate|].
        intros (d & Hd & Hsig). injection Hd as <-.
        unfold len in E. destruct data; [discriminate | simpl in E; lia].
      + simpl negb. simpl andb. cbv iota.
        rewrite (startswith_header data (b "DDS ")) by (simpl; lia).
        rewrite bool_decide_eq_true. simpl length. split.
        * intros H. now exists data.
        * intros (d & Hd & Hsig). now injection Hd as <-.
    - split; [discriminate|]. intros (d & Hd & _). discriminate. }
  split; [exact Hiff|]. split.
  - intros Hinfo. apply Hiff. now apply get_dds_info_signature.
  - intros data Hfile Hsig Hshort. split; [apply Hiff; eauto|].
    unfold get_dds_info. rewrite Hfile.
    now rewrite parse_dds_short.
Qed.

Lemma lstrip_keeps_last (l : list byte) (c : byte) :
  is_space c = false -> exists l', lstrip (l ++ [c]) = l' ++ [c].
Proof.
  intros Hc. induction l as [|x l IH]; simpl.
  - rewrite Hc. now exists [].
  - destruct (is_space x); [exact IH|]. now exists (x :: l).
Qed.

Lemma strip_keeps_first (c : byte) (rest : list byte) :
  is_space c = false -> exists rest', strip (c :: rest) = c :: rest'.
Proof.
  intros Hc. unfold strip. simpl lstrip. rewrite Hc. simpl rev.
  destruct (lstrip_keeps_last (rev rest) c Hc) as (l' & ->).
  rewrite rev_app_distr. simpl. now exists (rev l').
Qed.

(** X24: in mobile mode the viewer lists every blob that [wrap_raw_astc]
    produced, and every raw blob whose length is the expected size of some
    positive dimensions and whose first sixteen bytes, stripped of white
    space, do not begin with an opening brace or angle bracket. *)
Theorem mobile_listing_accepts (file_path : string) (data : list byte)
    (w : World) :
  fs w !! file_path = Some data ->
  (forall raw_path width height bw bh world,
     wrap_raw_astc raw_path width height bw bh world = Some data ->
     is_valid_texture_file false true file_path w = true)
  /\ (forall width height bw bh,
        0 < width -> 0 < height -> 0 < bw -> 0 < bh ->
        calculate_astc_size width height bw bh = Ret (len data) ->
        startswith (strip (take 16 data)) (b "{") = false ->
        startswith (strip (take 16 data)) (b "<") = false ->
        is_valid_texture_file false true file_path w = true).
Proof.
  intros Hfile. split.
  - intros raw_path width height bw bh world Hwrap.
    destruct (wrap_raw_astc_Some _ _ _ _ _ _ _ Hwrap)
      as (header & raw & Hhdr & _ & ->).
    pose proof (astc_header_Ret_packable _ _ _ _ _ Hhdr)
      as (Hw & Hh & Hbw & Hbh).
    rewrite astc_header_bytes in Hhdr by assumption.
    injection Hhdr as <-.
    unfold is_valid_texture_file. rewrite Hfile. reflexivity.
  - intros width height bw bh Hw Hh Hbw Hbh Hsize Hbrace Hangle.
    rewrite calculate_astc_size_value in Hsize by lia.
    injection Hsize as Hsize.
    pose proof (blocks_positive width bw Hw Hbw) as Px.
    pose proof (blocks_positive height bh Hh Hbh) as Py.
    unfold is_valid_texture_file. rewrite Hfile.
    replace (len data =? 0) with false by (symmetry; apply Z.eqb_neq; nia).
    simpl negb. simpl andb. cbv iota.
    replace (len data mod 16 =? 0) with true
      by (symmetry; apply Z.eqb_eq; rewrite <- Hsize; apply Z.mod_mul; lia).
    rewrite Hbrace, Hangle. simpl orb.
    repeat (match goal with
            | |- context [if ?c then true else _] => destruct c
            end; try reflexivity).
Qed.

(** X25: the viewer lists no empty file in any mode, and in mobile mode it
    drops a blob of a whole number of blocks whose first byte is an opening
    brace or angle bracket, when the first sixteen bytes hold none of the
    known markers, although such a byte can start compressed data. *)
Theorem listing_rejects (is_pcvr_textures is_quest_textures : bool)
    (file_path : string) (w : World) :
  (fs w !! file_path = Some [] ->
   is_valid_texture_file is_pcvr_textures is_quest_textures file_path w
   = false)
  /\ (forall c rest,
        fs w !! file_path = Some (c :: rest) ->
        c = x7b \/ c = x3c ->
        contains (b "BcBP") (take 16 (c :: rest)) = false ->
        is_valid_texture_file false true file_path w = false).
Proof.
  split.
  - intros Hfile. unfold is_valid_texture_file. now rewrite Hfile.
  - intros c rest Hfile Hc Hmark.
    unfold is_valid_texture_file. rewrite Hfile.
    replace (len (c :: rest) =? 0) with false
      by (symmetry; apply Z.eqb_neq; unfold len; simpl; lia).
    simpl negb. simpl andb. cbv iota. rewrite Hmark.
    assert (Hsp : is_space c = false) by (destruct Hc as [-> | ->]; reflexivity).
    change (take 16 (c :: rest)) with (c :: take 15 rest).
    destruct (strip_keeps_first c (take 15 rest) Hsp) as (rest' & ->).
    destruct Hc as [-> | ->]; destruct (_ mod 16 =? 0); reflexivity.
Qed.

(** X26: the pages of the grid view tile the list of files: there is at
    least one page; every page holds at most 96 files and starts where the
    page before it ends; the first starts at 0 and the last ends at the
    number of files; and the previous and next buttons never leave the
    range of pages. *)
Theorem grid_pages_tile (n : Z) :
  0 <= n ->
  1 <= total_pages n
  /\ fst (page_bounds 0 n) = 0
  /\ snd (page_bounds (total_pages n - 1) n) = n
  /\ (forall p, 0 <= p < total_pages n ->
        fst (page_bounds p n) <= snd (page_bounds p n)
        /\ snd (page_bounds p n) - fst (page_bounds p n) <= 96
        /\ (p + 1 < total_pages n ->
            snd (page_bounds p n) = fst (page_bounds (p + 1) n)
            /\ fst (page_bounds p n) < snd (page_bounds p n))
        /\ 0 <= prev_page p < total_pages n
        /\ 0 <= next_page p (total_pages n) < total_pages n).
Proof.
  intros Hn. unfold total_pages, page_bounds, prev_page, next_page.
  change TEXTURES_PER_PAGE with 96. simpl fst. simpl snd.
  pose proof (Z.div_mod (n + 96 - 1) 96 ltac:(lia)) as E.
  pose proof (Z.mod_pos_bound (n + 96 - 1) 96 ltac:(lia)) as B.
  set (q := (n + 96 - 1) / 96) in *.
  split; [lia|]. split; [lia|]. split; [lia|].
  intros p Hp.
  destruct (0 <? p) eqn:E1; destruct (p <? Z.max 1 q - 1) eqn:E2;
    try apply Z.ltb_lt in E1; try apply Z.ltb_ge in E1;
    try apply Z.ltb_lt in E2; try apply Z.ltb_ge in E2; lia.
Qed.

End Listing.

(** ** The directory listing cache *)

Section ListingCache.

Import TextureCacheManager.

Variable normpath : string -> string.
Variable str_lower : string -> string.

Lemma dict_set_absent (key : string) (value : list string) (cache : Listing) :
  (forall k v, In (k, v) cache -> k <> key) ->
  dict_set key value cache = cache ++ [(key, value)].
Proof.
  induction cache as [|[k v] rest IH]; intros Habs; [reflexivity|].
  simpl. replace (String.eqb k key) with false.
  - f_equal. apply IH. intros k' v' Hin. apply (Habs k' v'). now right.
  - symmetry. apply String.eqb_neq. apply (Habs k v). now left.
Qed.

Lemma first_match_app (np : string) (cache extra : Listing) :
  first_match normpath str_lower np (cache ++ extra)
  = match first_match normpath str_lower np cache with
    | Some files => Some files
    | None => first_match normpath str_lower np extra
    end.
Proof.
  induction cache as [|[k v] rest IH]; [reflexivity|].
  simpl. destruct (String.eqb _ np); [reflexivity | exact IH].
Qed.

Lemma first_match_none (np : string) (cache : Listing) :
  (forall k v, In (k, v) cache -> str_lower (normpath k) <> np) ->
  first_match normpath str_lower np cache = None.
Proof.
  induction cache as [|[k v] rest IH]; intros Hno; [reflexivity|].
  simpl. replace (String.eqb (str_lower (normpath k)) np) with false.
  - apply IH. intros k' v' Hin. apply (Hno k' v'). now right.
  - symmetry. apply String.eqb_neq. apply (Hno k v). now left.
Qed.

Lemma get_cached_files_first_match (folder_path : string)
    (stored : option Listing) :
  get_cached_files normpath str_lower folder_path stored
  = first_match normpath str_lower (str_lower (normpath folder_path))
      (load_cache stored).
Proof.
  unfold get_cached_files. now destruct (load_cache stored).
Qed.

(** X27: [update_cache] followed by [get_cached_files]. When no folder of
    the cache matches the new one up to case, the lookup returns the list
    just stored, under any spelling of the folder that differs only in case.
    When the cache already answers the lookup through a key with another
    spelling, the update is added under a new key behind it and the lookup
    keeps returning the old list. *)
Theorem update_then_get_cached_files (folder_path : string)
    (file_list : list string) (stored : option Listing) :
  (forall p, normpath (normpath p) = normpath p) ->
  (forall k v, In (k, v) (load_cache stored) -> k <> normpath folder_path) ->
  ((forall k v, In (k, v) (load_cache stored) ->
      str_lower (normpath k) <> str_lower (normpath folder_path)) ->
   forall other,
     str_lower (normpath other) = str_lower (normpath folder_path) ->
     get_cached_files normpath str_lower other
       (update_cache normpath folder_path file_list stored)
     = Some file_list)
  /\ (forall old,
        get_cached_files normpath str_lower folder_path stored = Some old ->
        get_cached_files normpath str_lower folder_path
          (update_cache normpath folder_path file_list stored)
        = Some old).
Proof.
  intros Hidem Habsent. split.
  - intros Hnone other Hother.
    rewrite get_cached_files_first_match. unfold update_cache.
    simpl load_cache at 1.
    rewrite (dict_set_absent _ _ _ Habsent), first_match_app, Hother.
    rewrite (first_match_none _ _ Hnone). simpl.
    now rewrite Hidem, String.eqb_refl.
  - intros old Hold.
    rewrite get_cached_files_first_match in *. unfold update_cache.
    simpl load_cache at 1.
    rewrite (dict_set_absent _ _ _ Habsent), first_match_app.
    now rewrite Hold.
Qed.

End ListingCache.

(** ** Further worked examples *)

Section FurtherExamples.

Import DDSHandler ASTCTools TextureReplacer.

Lemma encode_texture_target_length_witness :
  (exists payload w',
     encode_texture Demo.encode_one_block Demo.under_tmp "new.png"
       "tmp/encoded_foo_d" 8 8 8 8 "medium" (Some 20) Demo.quest_world
     = (true, w')
     /\ fs w' !! "tmp/encoded_foo_d" = Some payload
     /\ payload = repeat x11 16 ++ repeat x00 4)
  /\ encode_texture Demo.encode_one_block Demo.under_tmp "new.png"
       "nowhere/encoded_foo_d" 8 8 8 8 "medium" (Some 20) Demo.quest_world
     = (false,
        log_call (AstcencEncode "new.png" 8 8 "medium") Demo.quest_world).
Proof.
  split.
  - destruct (encode_texture_target_length Demo.encode_one_block
                Demo.under_tmp "new.png" "tmp/encoded_foo_d" "medium"
                8 8 8 8 20 Demo.quest_world) as [Hwritten _].
    + reflexivity.
    + lia.
    + lia.
    + lia.
    + destruct (Hwritten eq_refl)
        as (payload & w' & Hrun & Hout & _ & Hpayload & _).
      exists payload, w'. split; [exact Hrun|]. split; [exact Hout|].
      rewrite Hpayload. vm_compute. reflexivity.
  - destruct (encode_texture_target_length Demo.encode_one_block
                Demo.under_tmp "new.png" "nowhere/encoded_foo_d" "medium"
                8 8 8 8 20 Demo.quest_world) as [_ Hrefused].
    + reflexivity.
    + lia.
    + lia.
    + lia.
    + apply Hrefused. reflexivity.
Defined.

Lemma encode_texture_failure_writes_nothing_witness :
  encode_texture Demo.encode_fails Demo.under_tmp "new.png"
    "tmp/encoded_foo_d" 8 8 8 8 "medium" (Some 16) Demo.quest_world
  = (false, log_call (AstcencEncode "new.png" 8 8 "medium") Demo.quest_world).
Proof.
  apply encode_texture_failure_writes_nothing.
  left. vm_compute. discriminate.
Defined.

Lemma find_texture_info_iff_witness :
  find_texture_info "foo_d" Demo.foo_mapping = Some (mkTextureInfo 8 8).
Proof.
  apply find_texture_info_iff.
  right. split.
  - reflexivity.
  - exists "foo", "_d". split; [left; reflexivity |].
    split; reflexivity.
Defined.

Lemma decode_with_mapping_failure_leaves_no_trace_witness :
  let r := decode_with_mapping Demo.decode_timeout Demo.posix_stem
             Demo.posix_join "tex/foo_d" "out" Demo.foo_mapping
             Demo.quest_world in
  fs (snd r) = fs Demo.quest_world
  /\ DECODE_CACHE (snd r) = DECODE_CACHE Demo.quest_world.
Proof.
  intros r.
  apply (decode_with_mapping_failure_leaves_no_trace Demo.decode_timeout
           Demo.posix_stem Demo.posix_join "tex/foo_d" "out"
           Demo.foo_mapping Demo.quest_world (snd r)).
  - vm_compute. reflexivity.
  - vm_compute. reflexivity.
Defined.

Lemma missing_texture_file_witness :
  decode_with_mapping Demo.decode_any Demo.posix_stem Demo.posix_join
    "tex/none" "out" Demo.foo_mapping Demo.quest_world
  = (false, Demo.quest_world)
  /\ brute_force_decode Demo.decode_any Demo.posix_stem Demo.posix_join
       "tex/none" "out" Demo.quest_world
     = (Raise (FileNotFoundError "tex/none"), Demo.quest_world).
Proof.
  apply missing_texture_file.
  vm_compute. reflexivity.
Defined.

Lemma decode_with_mapping_first_block_size_witness :
  exists w',
    decode_with_mapping Demo.decode_8x8 Demo.posix_stem Demo.posix_join
      "tex/foo_d" "out" Demo.foo_mapping Demo.quest_world = (true, w')
    /\ length (tool_log w') = 2%nat.
Proof.
  destruct (decode_with_mapping_first_block_size Demo.decode_8x8
              Demo.posix_stem Demo.posix_join "tex/foo_d" "out"
              Demo.foo_mapping (mkTextureInfo 8 8) Demo.raw16
              Demo.quest_world)
    as (w' & Hrun & Hlog & _).
  - reflexivity.
  - simpl. lia.
  - simpl. lia.
  - reflexivity.
  - vm_compute. congruence.
  - vm_compute. reflexivity.
  - exists w'. split.
    + rewrite Hrun. reflexivity.
    + rewrite Hlog. reflexivity.
Defined.



Lemma wrap_raw_astc_succeeds_iff_witness :
  is_Some (wrap_raw_astc "tex/foo_d" 8 8 8 8 Demo.quest_world).
Proof.
  apply wrap_raw_astc_succeeds_iff.
  split.
  - unfold Notions.header_packable. lia.
  - exists Demo.raw16. reflexivity.
Defined.

Lemma astc_header_layout_witness :
  exists header,
    astc_header 8 8 8 8 = Ret header
    /\ length header = 16%nat
    /\ take 4 header = astc_magic.
Proof.
  destruct (astc_header_layout 8 8 8 8)
    as (header & Hhdr & Hlen & Hmagic & _).
  - unfold Notions.header_packable. lia.
  - exists header. repeat split; assumption.
Defined.

Lemma calculate_astc_size_covers_witness :
  exists s,
    calculate_astc_size 5 4 4 4 = Ret s /\ 16 <= s /\ s mod 16 = 0.
Proof.
  destruct (calculate_astc_size_covers 5 4 4 4) as [_ Hpos].
  destruct Hpos as (s & Hs & Hmin & Hmod & _); [lia | lia | lia | lia |].
  exists s. repeat split; assumption.
Defined.

Lemma hex_edit_file_size_frame_witness :
  fst (hex_edit_file_size "out/4a4c32c49300b8a0/tex1" 3 Demo.pcvr_world)
  = true.
Proof.
  destruct (hex_edit_file_size_frame "out/4a4c32c49300b8a0/tex1" 3
              Demo.pcvr_world) as [[_ Hok] _].
  apply Hok.
  exists Demo.descriptor. split; [reflexivity |].
  split; [vm_compute; discriminate | lia].
Defined.

Lemma hex_edit_file_size_last_wins_witness :
  hex_edit_file_size "out/4a4c32c49300b8a0/tex1" 5
    (snd (hex_edit_file_size "out/4a4c32c49300b8a0/tex1" 3 Demo.pcvr_world))
  = hex_edit_file_size "out/4a4c32c49300b8a0/tex1" 5 Demo.pcvr_world.
Proof.
  apply (hex_edit_file_size_last_wins "out/4a4c32c49300b8a0/tex1"
           Demo.descriptor 3 5 Demo.pcvr_world).
  - reflexivity.
  - vm_compute. discriminate.
  - lia.
  - lia.
Defined.

Lemma get_dds_info_format_fields_witness :
  exists info,
    get_dds_info "tex/dx10" Demo.dx10_world = Some info
    /\ file_size info = 148
    /\ format_code info = Some 87
    /\ is_problematic info = true.
Proof.
  destruct (get_dds_info_format_fields "tex/dx10" Demo.dx10_header
              Demo.dx10_world)
    as (info & Hinfo & Hsize & Hcode & Hbad).
  - reflexivity.
  - vm_compute. discriminate.
  - reflexivity.
  - exists info. repeat split; try assumption.
    apply Hbad. split; [reflexivity |].
    split; [vm_compute; discriminate |].
    vm_compute. tauto.
Defined.



Lemma replace_pcvr_texture_conversion_fails_witness :
  replace_pcvr_texture Demo.posix_join Demo.posix_basename
    Demo.texconv_none Demo.pcvr_temp "out" "in"
    "out/beac1969cb7b8861/tex1" "new.png" None Demo.pcvr_world_more
  = ((false, ConversionFailed),
     log_call (ConvertToDDS "new.png" 512 256) Demo.pcvr_world_more).
Proof.
  apply (replace_pcvr_texture_conversion_fails Demo.posix_join
           Demo.posix_basename Demo.texconv_none Demo.pcvr_temp
           "out" "in" "out/beac1969cb7b8861/tex1" "new.png"
           (mkDDSInfo 512 256 5 "BC1/DXT1" 128 None false)
           None Demo.pcvr_world_more).
  - vm_compute. reflexivity.
  - left. reflexivity.
  - reflexivity.
Defined.




Lemma compare_versions_iff_witness :
  Versions.compare_versions Demo.int_of_digits "1.2" "1.10" = true.
Proof.
  apply compare_versions_iff.
  exists [1; 2], [1; 10]. split; [reflexivity |]. split; [reflexivity |].
  exists 1%nat. split.
  - intros j Hj. destruct j as [| j]; [reflexivity | lia].
  - simpl. lia.
Defined.

Lemma compare_versions_strict_order_witness :
  Versions.compare_versions Demo.int_of_digits "1.0.0" "2" = true
  /\ Versions.compare_versions Demo.int_of_digits "1.2" "1.0.0" = false.
Proof.
  destruct (compare_versions_strict_order Demo.int_of_digits
              "1.0.0" "1.2" "2") as (_ & Hasym & Htrans).
  split.
  - apply Htrans; reflexivity.
  - apply Hasym. reflexivity.
Defined.

Lemma compare_versions_trailing_zeros_witness :
  Versions.compare_versions Demo.int_of_digits "1.2" "1.2.0.0" = false
  /\ Versions.compare_versions Demo.int_of_digits "1.2.0.0" "1.2" = false.
Proof.
  apply (compare_versions_trailing_zeros Demo.int_of_digits
           "1.2" "1.2.0.0" [1; 2] 2).
  - reflexivity.
  - reflexivity.
Defined.

Lemma desktop_listing_witness :
  Viewer.is_valid_texture_file true false "out/beac1969cb7b8861/tex1"
    Demo.pcvr_world = true.
Proof.
  destruct (desktop_listing false "out/beac1969cb7b8861/tex1"
              Demo.pcvr_world) as [[_ Hlisted] _].
  apply Hlisted.
  exists Demo.dds_header. split; reflexivity.
Defined.

Lemma mobile_listing_accepts_witness :
  Viewer.is_valid_texture_file false true "tex/foo_d" Demo.quest_world
  = true.
Proof.
  destruct (mobile_listing_accepts "tex/foo_d" Demo.raw16 Demo.quest_world)
    as [_ Hsized].
  - reflexivity.
  - apply (Hsized 4 4 4 4); try lia; reflexivity.
Defined.

Lemma listing_rejects_witness :
  Viewer.is_valid_texture_file false true "tex/brace" Demo.brace_world
  = false
  /\ Viewer.is_valid_texture_file false true "tex/empty" Demo.brace_world
     = false.
Proof.
  split.
  - destruct (listing_rejects false true "tex/brace" Demo.brace_world)
      as [_ Hmarkup].
    apply (Hmarkup x7b (repeat x07 15)).
    + reflexivity.
    + left. reflexivity.
    + reflexivity.
  - destruct (listing_rejects false true "tex/empty" Demo.brace_world)
      as [Hempty _].
    apply Hempty. reflexivity.
Defined.

Lemma grid_pages_tile_witness :
  Viewer.total_pages 200 = 3
  /\ snd (Viewer.page_bounds (Viewer.total_pages 200 - 1) 200) = 200
  /\ snd (Viewer.page_bounds 0 200) = fst (Viewer.page_bounds 1 200).
Proof.
  destruct (grid_pages_tile 200) as (_ & _ & Hlast & Hpage); [lia |].
  split; [reflexivity |]. split; [exact Hlast |].
  destruct (Hpage 0) as (_ & _ & Hnext & _); [vm_compute; split; congruence |].
  apply Hnext. vm_compute. reflexivity.
Defined.

Lemma update_then_get_cached_files_witness :
  TextureCacheManager.get_cached_files (fun p => p) lower "c:/tex"
    (TextureCacheManager.update_cache (fun p => p) "c:/tex" ["z"]
       Demo.one_folder)
  = Some ["a"; "b"].
Proof.
  destruct (update_then_get_cached_files (fun p => p) lower "c:/tex" ["z"]
              Demo.one_folder) as [_ Hstale].
  - reflexivity.
  - intros k v [Hin | []]. injection Hin as <- _. discriminate.
  - apply Hstale. reflexivity.
Defined.

End FurtherExamples.
